(** * Verification of [examples/proofs/generate.py]

    A shallow embedding of the proof-generation script: the JSON documents
    it reads and patches, the step-list derivation [compute_fri_step_list],
    the parameter patcher [update_parameter_file], the construction of the
    [cairo-run] command line and the per-layout main loop.

    Python values are modelled by the tree type [json]; a Python [dict]
    obtained from [json.load] is an association list in insertion order.
    Exceptions are explicit ([result]); code that touches files, logs or
    external programs threads a [world] through a state-and-exception
    monad. *)

From Stdlib Require Import ZArith String Ascii List Lia Bool.
From stdpp Require Import base option gmap strings list fin_maps.

Local Open Scope string_scope.
Local Open Scope list_scope.
#[local] Set Warnings "-register-all".

(** ** Python values and exceptions *)

(** What [json.load] can return.  JSON numbers with a fraction or an
    exponent (Python [float]) are outside the model: every number the script
    looks at ([n_steps], [last_layer_degree_bound]) is an integer. *)
Inductive json : Type :=
| JNull
| JBool (b : bool)
| JInt (n : Z)
| JStr (s : string)
| JArr (items : list json)
| JObj (fields : list (string * json)).

(** The exception classes the script can meet.  All of them derive from
    Python's [Exception]. *)
Inductive exn : Type :=
| ValueError
| KeyError (key : string)
| TypeError
| AttributeError
| FileNotFoundError (path : string)
| JSONDecodeError
| UnicodeDecodeError
| OSError
| CalledProcessError (cmd : list string) (returncode : Z).

Inductive result (A : Type) : Type :=
| Ok (a : A)
| Raise (e : exn).
Arguments Ok {A} a.
Arguments Raise {A} e.

Module Exc.
Definition bind {A B} (r : result A) (k : A -> result B) : result B :=
  match r with
  | Ok a => k a
  | Raise e => Raise e
  end.
End Exc.

Declare Scope exc_scope.
Delimit Scope exc_scope with exc.
Notation "'let?' x ':=' c 'in' k" := (Exc.bind c (fun x => k))
  (at level 10, x name, c at level 100, k at level 200) : exc_scope.

(** *** Dictionaries *)

(** [d[k]] on the field list of a dict: the first (and, after [json.load],
    only) entry for [k]. *)
Fixpoint dict_get (k : string) (d : list (string * json)) : option json :=
  match d with
  | [] => None
  | (k', v) :: d' => if String.eqb k k' then Some v else dict_get k d'
  end.

(** [d[k] = v]: an existing key keeps its position, a new key goes last. *)
Fixpoint dict_set (k : string) (v : json) (d : list (string * json))
  : list (string * json) :=
  match d with
  | [] => [(k, v)]
  | (k', v') :: d' =>
      if String.eqb k k' then (k', v) :: d' else (k', v') :: dict_set k v d'
  end.

Definition dict_keys (d : list (string * json)) : list string := map fst d.

(** [obj[k]] for a string key: only a dict can be subscripted by a string. *)
Definition py_getitem (obj : json) (k : string) : result json :=
  match obj with
  | JObj d =>
      match dict_get k d with
      | Some v => Ok v
      | None => Raise (KeyError k)
      end
  | _ => Raise TypeError
  end.

(** [obj[k] = v] for a string key. *)
Definition py_setitem (obj : json) (k : string) (v : json) : result json :=
  match obj with
  | JObj d => Ok (JObj (dict_set k v d))
  | _ => Raise TypeError
  end.

(** [obj.get(k, default)]: a method of dicts only. *)
Definition py_get (obj : json) (k : string) (default : json) : result json :=
  match obj with
  | JObj d =>
      match dict_get k d with
      | Some v => Ok v
      | None => Ok default
      end
  | _ => Raise AttributeError
  end.

(** *** Arithmetic *)

(** Binary64 numbers, as far as [math.log] and the division of two
    logarithms need them.  A number is the dyadic [m * 2 ^ e]; [round] is
    the rounding of the rational [p / q] to the nearest number with a
    53-bit mantissa, ties to even.  The numbers met here are far from the
    ends of the exponent range, so there is neither overflow nor
    underflow. *)
Module Binary64.

Local Open Scope Z_scope.

Definition dyadic : Type := (Z * Z)%type.

(** [2 ^ k <= p / q], for positive [p] and [q]. *)
Definition reaches (p q k : Z) : bool :=
  if 0 <=? k then q * 2 ^ k <=? p else q <=? p * 2 ^ (- k).

(** The floor of the binary logarithm of [p / q], for positive [p] and
    [q]. *)
Definition floor_log2 (p q : Z) : Z :=
  let k := Z.log2 p - Z.log2 q in
  if reaches p q k then k else k - 1.

Definition round (p q : Z) : dyadic :=
  if p =? 0 then (0, 0)
  else
    let a := Z.abs p in
    let e := floor_log2 a q - 52 in
    let n := if 0 <=? e then a else a * 2 ^ (- e) in
    let d := if 0 <=? e then q * 2 ^ e else q in
    let m := n / d in
    let r := n mod d in
    let up := orb (d <? 2 * r) (andb (2 * r =? d) (Z.odd m)) in
    (Z.sgn p * (if up then m + 1 else m), e).

(** The number as a fraction with a positive denominator. *)
Definition fraction (x : dyadic) : Z * Z :=
  let '(m, e) := x in
  if 0 <=? e then (m * 2 ^ e, 1) else (m, 2 ^ (- e)).

Definition of_Z (n : Z) : dyadic := round n 1.

Definition add (x y : dyadic) : dyadic :=
  let '(xp, xq) := fraction x in
  let '(yp, yq) := fraction y in
  round (xp * yq + yp * xq) (xq * yq).

Definition mul (x y : dyadic) : dyadic :=
  let '(xp, xq) := fraction x in
  let '(yp, yq) := fraction y in
  round (xp * yp) (xq * yq).

(** [x / y] for a [y] that is not 0. *)
Definition div (x y : dyadic) : dyadic :=
  let '(xp, xq) := fraction x in
  let '(yp, yq) := fraction y in
  round (Z.sgn yp * xp * yq) (xq * Z.abs yp).

Definition ceil (x : dyadic) : Z :=
  let '(m, e) := x in
  if 0 <=? e then m * 2 ^ e else - ((- m) / 2 ^ (- e)).

(** The natural logarithm in fixed point, [precision] bits after the
    point: [ln (p / q) = k * ln 2 + 2 * atanh ((y - 1) / (y + 1))] with
    [y = p / (q * 2 ^ k)] in [[1, 2)], and [ln 2 = 2 * atanh (1 / 3)].  The
    argument of [atanh] is at most [1 / 3]; [terms] terms of its series
    leave an error below [2 ^ -240], far below half a unit in the last of
    53 bits. *)
Definition precision : Z := 256.
Definition terms : nat := 90.

Fixpoint atanh_sum (fuel : nat) (i t z2n z2d acc : Z) : Z :=
  match fuel with
  | O => acc
  | S fuel' =>
      atanh_sum fuel' (i + 1) (t * z2n / z2d) z2n z2d (acc + t / (2 * i + 1))
  end.

Definition atanh_fixed (num den : Z) : Z :=
  atanh_sum terms 0 (num * 2 ^ precision / den) (num * num) (den * den) 0.

Definition ln2_fixed : Z := 2 * atanh_fixed 1 3.

Definition ln_fixed (p q : Z) : Z :=
  let k := floor_log2 p q in
  let yn := if 0 <=? k then p else p * 2 ^ (- k) in
  let yd := if 0 <=? k then q * 2 ^ k else q in
  k * ln2_fixed + 2 * atanh_fixed (yn - yd) (yn + yd).

(** The [log] of the C library on a positive number, taken as correctly
    rounded: the binary64 number nearest to the logarithm. *)
Definition log (x : dyadic) : dyadic :=
  let '(p, q) := fraction x in
  if p =? q then (0, 0) else round (ln_fixed p q) (2 ^ precision).

End Binary64.

(** The functions of Python's [math] the script imports. *)
Module Math.

Local Open Scope Z_scope.

(** The logarithm of a positive [int], as CPython takes it: the integer is
    rounded to binary64 and handed to the C library; an integer too large
    for binary64 is split into a mantissa in [[1/2, 1)] and an exponent
    [e], and the result is [log(mantissa) + log(2.0) * e]. *)
Definition loghelper (n : Z) : Binary64.dyadic :=
  let '(m, e) := Binary64.of_Z n in
  if 2 ^ 1024 <=? m * 2 ^ e then
    let '(m', e') := if m =? 2 ^ 53 then (2 ^ 52, e + 1) else (m, e) in
    Binary64.add (Binary64.log (m', -53))
      (Binary64.mul (Binary64.log (Binary64.of_Z 2))
         (Binary64.of_Z (e' + 53)))
  else Binary64.log (m, e).

(** [log(x, base)] for positive integers, [base] above 1: the quotient of
    the two logarithms, in binary64. *)
Definition log (x base : Z) : Binary64.dyadic :=
  Binary64.div (loghelper x) (loghelper base).

(** [ceil(x)] of a float: an exact integer. *)
Definition ceil (x : Binary64.dyadic) : Z := Binary64.ceil x.

End Math.

Arguments Math.log : simpl never.
Arguments Math.ceil : simpl never.

(** [ceil(log(x, 2))].  [math.log] accepts integers (and [bool], a subclass
    of [int]), raises [ValueError] ("math domain error") for a value that is
    not positive and [TypeError] for anything that is not a number.  The
    quotient [log(x) / log(2)] is computed in binary64, so the result is
    not always the ceiling of the binary logarithm: for [2 ^ 29] the
    quotient is the float just above 29 and the result is 30. *)
Definition ceil_log2 (x : json) : result Z :=
  match x with
  | JInt n =>
      if (0 <? n)%Z then Ok (Math.ceil (Math.log n 2)) else Raise ValueError
  | JBool true => Ok (Math.ceil (Math.log 1 2))
  | JBool false => Raise ValueError
  | _ => Raise TypeError
  end.

(** [[x] * q]: a count that is not positive gives the empty list. *)
Definition list_mul (x : Z) (q : Z) : list Z := repeat x (Z.to_nat q).

(** A Python list of integers as a value. *)
Definition int_list (l : list Z) : json := JArr (map JInt l).

(** ** Step-list derivation *)

Definition compute_fri_step_list (n_steps : json) (config : json)
  : result (list Z) :=
  (let? n_steps_log := ceil_log2 n_steps in
   let? stark := py_getitem config "stark" in
   let? fri := py_getitem stark "fri" in
   let? bound := py_getitem fri "last_layer_degree_bound" in
   let? last_layer_degree_bound_log := ceil_log2 bound in
   let sigma_fri_step_list :=
     (n_steps_log + 4 - last_layer_degree_bound_log)%Z in
   let q := (sigma_fri_step_list / 4)%Z in
   let r := (sigma_fri_step_list mod 4)%Z in
   Ok ([0%Z] ++ list_mul 4 q ++ (if (0 <? r)%Z then [r] else [])))%exc.

(** ** Paths *)

(** [path.endswith("/")]. *)
Fixpoint ends_with_sep (path : string) : bool :=
  match path with
  | EmptyString => false
  | String c EmptyString => Ascii.eqb c "/"
  | String _ rest => ends_with_sep rest
  end.

(** [os.path.join(a, b)] of [posixpath]: an absolute [b] replaces [a]; no
    separator is added after an empty [a] or after one that ends with it. *)
Definition os_path_join (a b : string) : string :=
  if String.prefix "/" b then b
  else if orb (String.eqb a "") (ends_with_sep a) then a +:+ b
  else a +:+ "/" +:+ b.

(** ** Files, logs and the state the script runs in *)

(** A file holds a JSON document, a text that is not JSON (a Cairo source)
    or bytes that cannot be decoded as text (a trace, a memory dump). *)
Inductive file : Type :=
| JsonFile (doc : json)
| RawFile (content : string)
| BinaryFile (content : string).

Inductive level : Type := INFO | ERROR.

(** The log lines of the script, one constructor per format string. *)
Inductive message : Type :=
| RunningCommand (joined : string)
| CommandFailed (e : exn)
| UpdatedParameterFileSaved (updated_file : string)
| ProcessingLayout (layout : string)
| ProofSaved (layout proof_output : string)
| ErrorProcessingLayout (layout : string) (e : exn).

Record world : Type := World {
  files : gmap string file;
  logs : list (level * message)
}.

(** Computations that read and change the world and may raise.  The world
    reached when an exception is raised is kept: a handler sees the files
    and log lines written before the failure. *)
Definition M (A : Type) : Type := world -> result A * world.

Module St.
Definition ret {A} (a : A) : M A := fun w => (Ok a, w).

Definition raise {A} (e : exn) : M A := fun w => (Raise e, w).

Definition bind {A B} (m : M A) (k : A -> M B) : M B :=
  fun w =>
    match m w with
    | (Ok a, w') => k a w'
    | (Raise e, w') => (Raise e, w')
    end.

Definition lift {A} (r : result A) : M A := fun w => (r, w).

(** [try: body / except ... as e: handler e]; a handler that does not
    match re-raises. *)
Definition try_except {A} (body : M A) (handler : exn -> M A) : M A :=
  fun w =>
    match body w with
    | (Ok a, w') => (Ok a, w')
    | (Raise e, w') => handler e w'
    end.
End St.

Declare Scope st_scope.
Delimit Scope st_scope with st.
Notation "'do' x <- c ; k" := (St.bind c (fun x => k))
  (at level 10, x name, c at level 100, k at level 200) : st_scope.
Notation "c ;; k" := (St.bind c (fun _ => k))
  (at level 100, k at level 200, right associativity) : st_scope.

Definition logging (lvl : level) (msg : message) : M unit :=
  fun w => (Ok tt, World (files w) (logs w ++ [(lvl, msg)])).

Definition logging_info : message -> M unit := logging INFO.
Definition logging_error : message -> M unit := logging ERROR.

(** [with open(path, "r") as f: json.load(f)]: the file is read as text,
    then parsed. *)
Definition json_load (path : string) : M json :=
  fun w =>
    match files w !! path with
    | Some (JsonFile doc) => (Ok doc, w)
    | Some (RawFile _) => (Raise JSONDecodeError, w)
    | Some (BinaryFile _) => (Raise UnicodeDecodeError, w)
    | None => (Raise (FileNotFoundError path), w)
    end.

(** [with open(path, "w") as f: json.dump(doc, f, indent=4)].  Directories
    are not modelled: the write succeeds. *)
Definition json_dump (doc : json) (path : string) : M unit :=
  fun w => (Ok tt, World (<[path := JsonFile doc]> (files w)) (logs w)).

(** ** Step extraction and the parameter patcher *)

Definition extract_steps (public_input_file : string) : M json :=
  (do public_input <- json_load public_input_file ;
   St.lift (py_get public_input "n_steps" (JInt 0)))%st.

(** [config["stark"]["fri"]["fri_step_list"] = value].  The loaded document
    is a tree without sharing, so the in-place update of the inner dict is
    the update of the document at that path. *)
Definition assign_fri_step_list (config value : json) : result json :=
  (let? stark := py_getitem config "stark" in
   let? fri := py_getitem stark "fri" in
   let? fri' := py_setitem fri "fri_step_list" value in
   let? stark' := py_setitem stark "fri" fri' in
   py_setitem config "stark" stark')%exc.

Definition update_parameter_file
    (parameter_file_path tmpdir : string) (n_steps : json) : M string :=
  (do config <- json_load parameter_file_path ;
   do fri_step_list <- St.lift (compute_fri_step_list n_steps config) ;
   do config' <-
     St.lift (assign_fri_step_list config (int_list fri_step_list)) ;
   let updated_file := os_path_join tmpdir "updated_cpu_air_params.json" in
   json_dump config' updated_file ;;
   logging_info (UpdatedParameterFileSaved updated_file) ;;
   St.ret updated_file)%st.

(** ** Command lines *)

Definition LAYOUTS : list string :=
  [ "dex";
    "recursive";
    "recursive_with_poseidon";
    "small";
    "starknet";
    "starknet_with_keccak" ].

Definition PARAMETER_FILE : string := "cpu_air_params.json".
Definition PROVER_CONFIG_FILE : string := "cpu_air_prover_config.json".
Definition PROGRAM_INPUT_FILE : string := "fibonacci_input.json".

Definition build_cairo_run_command
    (layout compiled_output trace_file memory_file
     public_input_file private_input_file : string) : list string :=
  let base_command :=
    [ "cairo-run";
      "--program";
      compiled_output;
      "--layout";
      layout;
      "--proof_mode";
      "--program_input";
      PROGRAM_INPUT_FILE;
      "--trace_file";
      trace_file;
      "--memory_file";
      memory_file;
      "--air_private_input";
      private_input_file;
      "--air_public_input";
      public_input_file;
      "--print_info";
      "--print_output" ] in
  if String.eqb layout "dynamic" then
    let cairo_layout_params_file :=
      os_path_join layout "cairo_layout_params.json" in
    base_command ++ ["--cairo_layout_params_file"; cairo_layout_params_file]
  else base_command.

(** The list [process_layout] builds in line for the run step (it does not
    call [build_cairo_run_command]). *)
Definition cairo_run_command (layout tmpdir : string) : list string :=
  let compiled_output := os_path_join tmpdir "fibonacci_compiled.json" in
  let trace_file := os_path_join tmpdir "fibonacci_trace.bin" in
  let memory_file := os_path_join tmpdir "fibonacci_memory.bin" in
  let public_input_file :=
    os_path_join tmpdir "fibonacci_public_input.json" in
  let private_input_file :=
    os_path_join tmpdir "fibonacci_private_input.json" in
  let cairo_run_command :=
    [ "cairo-run";
      "--program";
      compiled_output;
      "--layout";
      layout;
      "--proof_mode";
      "--program_input";
      PROGRAM_INPUT_FILE;
      "--trace_file";
      trace_file;
      "--memory_file";
      memory_file;
      "--air_private_input";
      private_input_file;
      "--air_public_input";
      public_input_file;
      "--print_info";
      "--print_output" ] in
  if String.eqb layout "dynamic" then
    let cairo_layout_params_file :=
      os_path_join layout "cairo_layout_params.json" in
    cairo_run_command
      ++ ["--cairo_layout_params_file"; cairo_layout_params_file]
  else cairo_run_command.

(** ** The pipeline *)

(** How an external program ends: with an exit status, or not at all when
    the executable cannot be started. *)
Inductive outcome : Type :=
| Exit (returncode : Z)
| NotStarted.

Section Pipeline.

(** The external programs and the temporary-directory names are not part
    of the script: what a command does to the files and how it ends, and
    the name [tempfile] picks, are arbitrary functions of the current
    files. *)
Variable subprocess_run :
  list string -> gmap string file -> outcome * gmap string file.
Variable mkdtemp : gmap string file -> string.

(** [subprocess.run(command, check=True)]. *)
Definition subprocess_run_check (command : list string) : M unit :=
  fun w =>
    let '(o, fs) := subprocess_run command (files w) in
    let w' := World fs (logs w) in
    match o with
    | Exit 0 => (Ok tt, w')
    | Exit returncode => (Raise (CalledProcessError command returncode), w')
    | NotStarted => (Raise OSError, w')
    end.

Definition run_command (command : list string) : M unit :=
  St.try_except
    (logging_info (RunningCommand (String.concat " " command)) ;;
     subprocess_run_check command)%st
    (fun e =>
       match e with
       | CalledProcessError _ _ =>
           (logging_error (CommandFailed e) ;; St.raise e)%st
       | _ => St.raise e
       end).

(** [shutil.rmtree(tmpdir)]: every file below the directory goes. *)
Definition rmtree (tmpdir : string) (fs : gmap string file)
  : gmap string file :=
  filter (fun kv => String.prefix (tmpdir +:+ "/") (fst kv) = false) fs.

(** [with tempfile.TemporaryDirectory() as tmpdir: body]: the directory
    is removed on every way out of the body. *)
Definition with_temporary_directory {A} (body : string -> M A) : M A :=
  fun w =>
    let tmpdir := mkdtemp (files w) in
    let '(r, w') := body tmpdir w in
    (r, World (rmtree tmpdir (files w')) (logs w')).

Definition process_layout (layout : string) : M unit :=
  (logging_info (ProcessingLayout layout) ;;
   with_temporary_directory (fun tmpdir =>
     let compiled_output := os_path_join tmpdir "fibonacci_compiled.json" in
     run_command
       [ "cairo-compile";
         layout +:+ "/cairo0_fibonacci.cairo";
         "--output";
         compiled_output;
         "--no_debug_info";
         "--proof_mode" ] ;;
     let public_input_file :=
       os_path_join tmpdir "fibonacci_public_input.json" in
     let private_input_file :=
       os_path_join tmpdir "fibonacci_private_input.json" in
     run_command (cairo_run_command layout tmpdir) ;;
     do n_steps <- extract_steps public_input_file ;
     do updated_parameter_file <-
       update_parameter_file PARAMETER_FILE tmpdir n_steps ;
     let proof_output :=
       layout +:+ "/cairo0_stone6_keccak_160_lsb_example_proof.json" in
     run_command
       [ "cpu_air_prover";
         "--parameter_file";
         updated_parameter_file;
         "--prover_config_file";
         PROVER_CONFIG_FILE;
         "--public_input_file";
         public_input_file;
         "--private_input_file";
         private_input_file;
         "--out_file";
         proof_output;
         "--generate_annotations" ] ;;
     logging_info (ProofSaved layout proof_output)))%st.

(** [for layout in layouts: try: process_layout(layout) / except
    Exception as e: logging.error(...)]. *)
Fixpoint main_loop (layouts : list string) : M unit :=
  match layouts with
  | [] => St.ret tt
  | layout :: rest =>
      (St.try_except (process_layout layout)
         (fun e => logging_error (ErrorProcessingLayout layout e)) ;;
       main_loop rest)%st
  end.

Definition main : M unit := main_loop LAYOUTS.

End Pipeline.

(** The layouts whose processing was started, in the order of the log. *)
Fixpoint processed (l : list (level * message)) : list string :=
  match l with
  | [] => []
  | (_, ProcessingLayout layout) :: l' => layout :: processed l'
  | _ :: l' => processed l'
  end.

(** The layouts whose processing was reported as failed at the top level,
    in the order of the log. *)
Fixpoint failed (l : list (level * message)) : list string :=
  match l with
  | [] => []
  | (_, ErrorProcessingLayout layout _) :: l' => layout :: failed l'
  | _ :: l' => failed l'
  end.

(** ** Vocabulary of the properties *)

(** The field the derivation reads: [config["stark"]["fri"]
    ["last_layer_degree_bound"]]. *)
Definition last_layer_degree_bound (config : json) : result json :=
  (let? stark := py_getitem config "stark" in
   let? fri := py_getitem stark "fri" in
   py_getitem fri "last_layer_degree_bound")%exc.

(** [k] is the ceiling of the binary logarithm of [n]: the least natural
    exponent whose power of two reaches [n]. *)
Definition is_ceil_log2 (n k : Z) : Prop :=
  (0 <= k /\ n <= 2 ^ k /\ forall j, 0 <= j -> n <= 2 ^ j -> k <= j)%Z.

(** [(q, r)] is [divmod(a, 4)] in the floor convention: the remainder has
    the sign of the divisor. *)
Definition is_divmod4 (a q r : Z) : Prop :=
  (a = 4 * q + r /\ 0 <= r < 4)%Z.

Definition sum_list (l : list Z) : Z := fold_right Z.add 0%Z l.

(** The value found by following the keys [p] down nested dicts. *)
Fixpoint get_path (p : list string) (doc : json) : option json :=
  match p with
  | [] => Some doc
  | k :: p' =>
      match doc with
      | JObj d =>
          match dict_get k d with
          | Some v => get_path p' v
          | None => None
          end
      | _ => None
      end
  end.

(** The keys, in order, of the dict at [p]. *)
Definition keys_at (p : list string) (doc : json) : option (list string) :=
  match get_path p doc with
  | Some (JObj d) => Some (dict_keys d)
  | _ => None
  end.

Definition fri_step_list_path : list string :=
  ["stark"; "fri"; "fri_step_list"].

Definition updated_file_path (tmpdir : string) : string :=
  os_path_join tmpdir "updated_cpu_air_params.json".

Definition LAYOUT_PARAMS_FLAG : string := "--cairo_layout_params_file".

(** [flag] occurs in [command] immediately followed by [value]. *)
Fixpoint has_flag_value (flag value : string) (command : list string)
  : bool :=
  match command with
  | a :: (b :: _) as rest =>
      orb (andb (String.eqb a flag) (String.eqb b value))
          (has_flag_value flag value rest)
  | _ => false
  end.

(** [s[n:]]. *)
Fixpoint string_drop (n : nat) (s : string) : string :=
  match n, s with
  | O, _ => s
  | S n', String _ s' => string_drop n' s'
  | S _, EmptyString => EmptyString
  end.

(** A computation is [silent] when the lines it logs, on every way out,
    come after the lines already there and none of them announces a
    layout. *)
Definition silent {A} (m : M A) : Prop :=
  forall w : world,
    exists extra, logs (m w).2 = logs w ++ extra /\ processed extra = [].

(** ** Sample data *)

(** A configuration with nothing but the field the derivation reads. *)
Definition config_with_bound (b : Z) : json :=
  JObj [("stark", JObj [("fri", JObj [("last_layer_degree_bound", JInt b)])])].

(** A baseline configuration shaped like [cpu_air_params.json]. *)
Definition sample_config (bound : Z) : json :=
  JObj
    [ ("field", JStr "PrimeField0");
      ("stark",
        JObj
          [ ("fri",
              JObj
                [ ("fri_step_list", JArr [JInt 0; JInt 4; JInt 3]);
                  ("last_layer_degree_bound", JInt bound);
                  ("n_queries", JInt 18);
                  ("proof_of_work_bits", JInt 24) ]);
            ("log_n_cosets", JInt 4) ]);
      ("use_extension_field", JBool false) ].

(** A world with nothing but the baseline parameter file. *)
Definition baseline_world (config : json) : world :=
  World {[ PARAMETER_FILE := JsonFile config ]} [].

(** The same baseline among other files, with a line already logged. *)
Definition busy_world : world :=
  World
    (<["fibonacci_input.json" := RawFile "{ fibonacci_claim_index: 10 }"]>
       (files (baseline_world (sample_config 64))))
    [(INFO, ProcessingLayout "dex")].

(** A world with the baseline and a public input whose [n_steps] is a
    string. *)
Definition string_steps_world : world :=
  World
    (<["pub.json" := JsonFile (JObj [("n_steps", JStr "1024")])]>
       (files (baseline_world (sample_config 64))))
    [].

(** A world with nothing but a public-input file. *)
Definition public_input_world (fields : list (string * json)) : world :=
  World {[ "fibonacci_public_input.json" := JsonFile (JObj fields) ]} [].

(** External programs that all exit with status 1. *)
Definition always_fails (command : list string) (fs : gmap string file)
  : outcome * gmap string file := (Exit 1, fs).

(** A [tempfile] that gives the same name every time. *)
Definition fixed_tmpdir (fs : gmap string file) : string := "/tmp/tmpk3v9".

(** The argument that follows [flag] on a command line. *)
Fixpoint argument_of (flag : string) (command : list string)
  : option string :=
  match command with
  | a :: (b :: _) as rest =>
      if String.eqb a flag then Some b else argument_of flag rest
  | _ => None
  end.

Definition write_or_fail (target : option string) (content : file)
    (fs : gmap string file) : outcome * gmap string file :=
  match target with
  | Some path => (Exit 0, <[path := content]> fs)
  | None => (Exit 2, fs)
  end.

(** A stand-in toolchain: the compiler rejects the [dex] program and
    otherwise writes its output, the runner writes a public input of 1024
    steps, the prover writes the proof. *)
Definition toolchain (command : list string) (fs : gmap string file)
  : outcome * gmap string file :=
  match command with
  | program :: source :: _ =>
      if String.eqb program "cairo-compile" then
        if String.eqb source "dex/cairo0_fibonacci.cairo" then (Exit 1, fs)
        else write_or_fail (argument_of "--output" command)
               (JsonFile (JObj [("prime", JStr "0x800000000000011")])) fs
      else if String.eqb program "cairo-run" then
        write_or_fail (argument_of "--air_public_input" command)
          (JsonFile
             (JObj
                [ ("layout",
                   JStr (default "" (argument_of "--layout" command)));
                  ("n_steps", JInt 1024) ]))
          fs
      else if String.eqb program "cpu_air_prover" then
        write_or_fail (argument_of "--out_file" command) (RawFile "proof") fs
      else (NotStarted, fs)
  | _ => (NotStarted, fs)
  end.

(** ** Vocabulary of the further properties *)

(** The three command lines of [process_layout], and the paths it hands
    from one step to the next. *)
Definition compile_command (layout tmpdir : string) : list string :=
  [ "cairo-compile";
    layout +:+ "/cairo0_fibonacci.cairo";
    "--output";
    os_path_join tmpdir "fibonacci_compiled.json";
    "--no_debug_info";
    "--proof_mode" ].

Definition public_input_path (tmpdir : string) : string :=
  os_path_join tmpdir "fibonacci_public_input.json".

Definition private_input_path (tmpdir : string) : string :=
  os_path_join tmpdir "fibonacci_private_input.json".

Definition proof_output_path (layout : string) : string :=
  layout +:+ "/cairo0_stone6_keccak_160_lsb_example_proof.json".

Definition prover_command (layout tmpdir updated_parameter_file : string)
  : list string :=
  [ "cpu_air_prover";
    "--parameter_file";
    updated_parameter_file;
    "--prover_config_file";
    PROVER_CONFIG_FILE;
    "--public_input_file";
    public_input_path tmpdir;
    "--private_input_file";
    private_input_path tmpdir;
    "--out_file";
    proof_output_path layout;
    "--generate_annotations" ].

(** The line [run_command] logs before it starts a command. *)
Definition running (command : list string) : level * message :=
  (INFO, RunningCommand (String.concat " " command)).

(** The line [run_command] logs when the command exits with a status other
    than 0. *)
Definition command_failed (command : list string) (returncode : Z)
  : level * message :=
  (ERROR, CommandFailed (CalledProcessError command returncode)).

(** The body of the [with] block of [process_layout]. *)
Definition process_layout_body
    (subprocess_run :
       list string -> gmap string file -> outcome * gmap string file)
    (layout tmpdir : string) : M unit :=
  (run_command subprocess_run (compile_command layout tmpdir) ;;
   run_command subprocess_run (cairo_run_command layout tmpdir) ;;
   do n_steps <- extract_steps (public_input_path tmpdir) ;
   do updated_parameter_file <-
     update_parameter_file PARAMETER_FILE tmpdir n_steps ;
   run_command subprocess_run
     (prover_command layout tmpdir updated_parameter_file) ;;
   logging_info (ProofSaved layout (proof_output_path layout)))%st.

(** [ "/" in path ]. *)
Fixpoint contains_sep (path : string) : bool :=
  match path with
  | EmptyString => false
  | String c rest => orb (Ascii.eqb c "/") (contains_sep rest)
  end.

(** A computation [appends] lines accepted by [ok]: on every way out the
    log is the old log followed by such lines. *)
Definition appends (ok : level * message -> bool) {A} (m : M A) : Prop :=
  forall w : world,
    exists extra, logs (m w).2 = logs w ++ extra /\ forallb ok extra = true.

(** A computation [keeps] a path when the file there, or its absence, is
    the same on every way out. *)
Definition keeps (path : string) {A} (m : M A) : Prop :=
  forall w : world, files (m w).2 !! path = files w !! path.

Definition any_line (line : level * message) : bool := true.

Definition not_a_failure_report (line : level * message) : bool :=
  match line.2 with
  | ErrorProcessingLayout _ _ => false
  | _ => true
  end.

(** A runner that exits with status 1, in the stand-in toolchain. *)
Definition toolchain_runner_fails
    (command : list string) (fs : gmap string file)
  : outcome * gmap string file :=
  match command with
  | program :: _ =>
      if String.eqb program "cairo-run" then (Exit 1, fs)
      else toolchain command fs
  | [] => (NotStarted, fs)
  end.

(** A runner whose public input has no [n_steps], in the stand-in
    toolchain. *)
Definition toolchain_no_steps
    (command : list string) (fs : gmap string file)
  : outcome * gmap string file :=
  match command with
  | program :: _ =>
      if String.eqb program "cairo-run" then
        write_or_fail (argument_of "--air_public_input" command)
          (JsonFile (JObj [("layout", JStr "small")])) fs
      else toolchain command fs
  | [] => (NotStarted, fs)
  end.

(** * Properties *)

(** ** The step list *)

Lemma is_ceil_log2_log2_up (n : Z) :
  (0 < n)%Z -> is_ceil_log2 n (Z.log2_up n).
Proof.
  intros Hn. unfold is_ceil_log2. split; [apply Z.log2_up_nonneg|]. split.
  - destruct (Z.eq_dec n 1%Z) as [->|Hne]; [reflexivity|].
    apply Z.log2_up_spec. lia.
  - intros j _ Hj. apply Z.log2_up_le_pow2; assumption.
Qed.

(** The derivation reads the configuration through one field only. *)
Lemma compute_fri_step_list_unfold (n_steps config : json) :
  compute_fri_step_list n_steps config =
  (let? n_steps_log := ceil_log2 n_steps in
   let? bound := last_layer_degree_bound config in
   let? bound_log := ceil_log2 bound in
   let total := (n_steps_log + 4 - bound_log)%Z in
   Ok (0%Z :: list_mul 4 (total / 4)
         ++ (if (0 <? total mod 4)%Z then [(total mod 4)%Z] else [])))%exc.
Proof.
  unfold compute_fri_step_list, last_layer_degree_bound.
  destruct (ceil_log2 n_steps); simpl; [|reflexivity].
  destruct (py_getitem config "stark"); simpl; [|reflexivity].
  destruct (py_getitem _ "fri"); simpl; [|reflexivity].
  destruct (py_getitem _ "last_layer_degree_bound"); reflexivity.
Qed.

Example fri_1024_4 :
  compute_fri_step_list (JInt 1024) (config_with_bound 4) = Ok [0; 4; 4; 4]%Z.
Proof. vm_compute. reflexivity. Qed.

(** The quotient of the logarithms at [2 ^ 29] is above 29. *)
Lemma ceil_log2_2_29 : ceil_log2 (JInt (2 ^ 29)) = Ok 30%Z.
Proof. vm_compute. reflexivity. Qed.

Lemma is_ceil_log2_2_29 : is_ceil_log2 (2 ^ 29) 29.
Proof.
  replace 29%Z with (Z.log2_up (2 ^ 29)) at 2 by reflexivity.
  apply is_ceil_log2_log2_up. reflexivity.
Qed.

Lemma is_ceil_log2_4 : is_ceil_log2 4 2.
Proof.
  replace 2%Z with (Z.log2_up 4) by reflexivity.
  apply is_ceil_log2_log2_up. reflexivity.
Qed.

(** C1, where the code departs from it: for [n_steps = 2 ^ 29] and the
    bound 4 the ceilings of the binary logarithms are 29 and 2, the total
    is 31 and [divmod(31, 4) = (7, 3)], so the list of the claim is [0],
    seven times [4], then [3].  The code takes 30 for the first logarithm
    and returns [0] and eight times [4]. *)
Theorem compute_fri_step_list_at_2_29 :
  is_ceil_log2 (2 ^ 29) 29 /\
  is_ceil_log2 4 2 /\
  is_divmod4 (29 + 4 - 2) 7 3 /\
  ceil_log2 (JInt (2 ^ 29)) = Ok 30%Z /\
  compute_fri_step_list (JInt (2 ^ 29)) (sample_config 4)
  = Ok [0; 4; 4; 4; 4; 4; 4; 4; 4]%Z /\
  [0; 4; 4; 4; 4; 4; 4; 4; 4]%Z
  <> [0%Z] ++ repeat 4%Z (Z.to_nat 7) ++ [3%Z].
Proof.
  split; [apply is_ceil_log2_2_29|]. split; [apply is_ceil_log2_4|].
  split; [unfold is_divmod4; lia|]. split; [apply ceil_log2_2_29|].
  split; [vm_compute; reflexivity|]. discriminate.
Qed.

(** C2, where the code departs from it: for [n_steps = 2 ^ 29] and the
    bound 4 the total [29 + 4 - 2 = 31] is not negative, and the elements
    after the leading [0] of the list the code returns add up to 32. *)
Theorem compute_fri_step_list_sum_at_2_29 :
  is_ceil_log2 (2 ^ 29) 29 /\
  is_ceil_log2 4 2 /\
  (0 <= 29 + 4 - 2)%Z /\
  exists rest : list Z,
    compute_fri_step_list (JInt (2 ^ 29)) (sample_config 4)
    = Ok (0%Z :: rest) /\
    sum_list rest = 32%Z /\
    sum_list rest <> (29 + 4 - 2)%Z.
Proof.
  split; [apply is_ceil_log2_2_29|]. split; [apply is_ceil_log2_4|].
  split; [lia|]. exists (repeat 4%Z 8).
  split; [vm_compute; reflexivity|]. split; [reflexivity|discriminate].
Qed.

(** C3: the three worked cases: 1024 steps with bound 4, 100 steps with
    bound 2, 16 steps with bound 64. *)
Theorem compute_fri_step_list_cases (c1 c2 c3 : json) :
  last_layer_degree_bound c1 = Ok (JInt 4) ->
  last_layer_degree_bound c2 = Ok (JInt 2) ->
  last_layer_degree_bound c3 = Ok (JInt 64) ->
  compute_fri_step_list (JInt 1024) c1 = Ok [0; 4; 4; 4]%Z /\
  compute_fri_step_list (JInt 100) c2 = Ok [0; 4; 4; 2]%Z /\
  compute_fri_step_list (JInt 16) c3 = Ok [0; 2]%Z.
Proof.
  intros H1 H2 H3. rewrite !compute_fri_step_list_unfold, H1, H2, H3.
  repeat split; vm_compute; reflexivity.
Qed.

Lemma compute_fri_step_list_cases_witness :
  compute_fri_step_list (JInt 1024) (sample_config 4) = Ok [0; 4; 4; 4]%Z /\
  compute_fri_step_list (JInt 100) (config_with_bound 2)
    = Ok [0; 4; 4; 2]%Z /\
  compute_fri_step_list (JInt 16) (sample_config 64) = Ok [0; 2]%Z.
Proof.
  apply (compute_fri_step_list_cases
           (sample_config 4) (config_with_bound 2) (sample_config 64));
    reflexivity.
Defined.

(** C4: an [n_steps] that is not positive makes the derivation raise
    [ValueError], whatever the configuration; no list is returned. *)
Theorem compute_fri_step_list_nonpositive (n_steps : Z) (config : json) :
  (n_steps <= 0)%Z ->
  compute_fri_step_list (JInt n_steps) config = Raise ValueError.
Proof.
  intros Hn. unfold compute_fri_step_list. simpl.
  apply Z.ltb_ge in Hn. rewrite Hn. reflexivity.
Qed.

Lemma compute_fri_step_list_nonpositive_witness :
  compute_fri_step_list (JInt 0) (sample_config 64) = Raise ValueError.
Proof.
  apply (compute_fri_step_list_nonpositive 0 (sample_config 64)). lia.
Defined.

(** C10, where the code departs from it: for [n_steps = 1] and the bound
    [2 ^ 29] the total [0 + 4 - 29] is negative and
    [divmod(-25, 4) = (-7, 3)], so the list of the claim is [[0; 3]].  The
    code takes 30 for the logarithm of the bound and returns [[0; 2]]. *)
Theorem compute_fri_step_list_negative_total_at_2_29 :
  is_ceil_log2 1 0 /\
  is_ceil_log2 (2 ^ 29) 29 /\
  (0 + 4 - 29 < 0)%Z /\
  is_divmod4 (0 + 4 - 29) (-7) 3 /\
  compute_fri_step_list (JInt 1) (sample_config (2 ^ 29)) = Ok [0; 2]%Z /\
  [0; 2]%Z <> [0; 3]%Z.
Proof.
  split.
  { replace 0%Z with (Z.log2_up 1) at 2 by reflexivity.
    apply is_ceil_log2_log2_up. reflexivity. }
  split; [apply is_ceil_log2_2_29|]. split; [lia|].
  split; [unfold is_divmod4; lia|].
  split; [vm_compute; reflexivity|]. discriminate.
Qed.

(** ** Step extraction *)

(** C8: [extract_steps] returns the integer in the [n_steps] field of the
    public-input document, and [0] when the field is missing; with [0] the
    step-list derivation raises. *)
Theorem extract_steps_spec
    (w : world) (public_input_file : string)
    (fields : list (string * json)) :
  files w !! public_input_file = Some (JsonFile (JObj fields)) ->
  (forall n : Z,
     dict_get "n_steps" fields = Some (JInt n) ->
     extract_steps public_input_file w = (Ok (JInt n), w)) /\
  (dict_get "n_steps" fields = None ->
     extract_steps public_input_file w = (Ok (JInt 0), w) /\
     forall config : json,
       compute_fri_step_list (JInt 0) config = Raise ValueError).
Proof.
  intros Hfile. unfold extract_steps, St.bind, St.lift, json_load.
  rewrite Hfile. simpl. split.
  - intros n Hn. rewrite Hn. reflexivity.
  - intros Hnone. rewrite Hnone. split; reflexivity.
Qed.

Lemma extract_steps_spec_witness :
  extract_steps "fibonacci_public_input.json"
    (public_input_world [("layout", JStr "small"); ("n_steps", JInt 1024)])
  = (Ok (JInt 1024),
     public_input_world [("layout", JStr "small"); ("n_steps", JInt 1024)])
  /\
  extract_steps "fibonacci_public_input.json"
    (public_input_world [("layout", JStr "small")])
  = (Ok (JInt 0), public_input_world [("layout", JStr "small")]).
Proof.
  split.
  - apply (extract_steps_spec
             (public_input_world
                [("layout", JStr "small"); ("n_steps", JInt 1024)])
             "fibonacci_public_input.json"
             [("layout", JStr "small"); ("n_steps", JInt 1024)]);
      reflexivity.
  - apply (extract_steps_spec
             (public_input_world [("layout", JStr "small")])
             "fibonacci_public_input.json"
             [("layout", JStr "small")]);
      reflexivity.
Defined.

(** ** The parameter patcher *)

Lemma dict_get_set_eq (k : string) (v : json) (d : list (string * json)) :
  dict_get k (dict_set k v d) = Some v.
Proof.
  induction d as [|[k' v'] d IH]; simpl.
  - rewrite String.eqb_refl. reflexivity.
  - destruct (String.eqb k k') eqn:E; simpl; rewrite E; auto.
Qed.

Lemma dict_get_set_ne (k k' : string) (v : json) (d : list (string * json)) :
  k <> k' -> dict_get k' (dict_set k v d) = dict_get k' d.
Proof.
  intros Hne. induction d as [|[k0 v0] d IH]; simpl.
  - apply String.eqb_neq in Hne. rewrite String.eqb_sym, Hne. reflexivity.
  - destruct (String.eqb k k0) eqn:E; simpl.
    + apply String.eqb_eq in E. subst k0.
      assert (String.eqb k' k = false) as ->; [|reflexivity].
      apply String.eqb_neq. congruence.
    + rewrite IH. reflexivity.
Qed.

Lemma dict_set_set (k : string) (v v' : json) (d : list (string * json)) :
  dict_set k v (dict_set k v' d) = dict_set k v d.
Proof.
  induction d as [|[k0 v0] d IH]; simpl.
  - rewrite String.eqb_refl. reflexivity.
  - destruct (String.eqb k k0) eqn:E; simpl; rewrite E; congruence.
Qed.

Lemma dict_keys_set (k : string) (v : json) (d : list (string * json)) :
  dict_keys (dict_set k v d) =
  match dict_get k d with
  | Some _ => dict_keys d
  | None => dict_keys d ++ [k]
  end.
Proof.
  unfold dict_keys. induction d as [|[k0 v0] d IH]; simpl; [reflexivity|].
  destruct (String.eqb k k0) eqn:E; simpl; [reflexivity|].
  rewrite IH. destruct (dict_get k d); reflexivity.
Qed.

(** What a successful assignment did, read off the document. *)
Lemma assign_fri_step_list_inv (config value patched : json) :
  assign_fri_step_list config value = Ok patched ->
  exists top stark fri : list (string * json),
    config = JObj top /\
    dict_get "stark" top = Some (JObj stark) /\
    dict_get "fri" stark = Some (JObj fri) /\
    patched =
      JObj (dict_set "stark"
              (JObj (dict_set "fri"
                       (JObj (dict_set "fri_step_list" value fri)) stark))
              top).
Proof.
  unfold assign_fri_step_list.
  destruct config as [| | | | |top]; try discriminate. simpl.
  destruct (dict_get "stark" top) as [s|] eqn:Hs; [|discriminate]. simpl.
  destruct s as [| | | | |stark]; try discriminate. simpl.
  destruct (dict_get "fri" stark) as [f|] eqn:Hf; [|discriminate]. simpl.
  destruct f as [| | | | |fri]; try discriminate. simpl.
  intros [= <-]. exists top, stark, fri. auto.
Qed.

(** The bound can be read exactly when the assignment can be made. *)
Lemma assign_fri_step_list_defined (config value bound : json) :
  last_layer_degree_bound config = Ok bound ->
  exists patched, assign_fri_step_list config value = Ok patched.
Proof.
  unfold last_layer_degree_bound, assign_fri_step_list.
  destruct config as [| | | | |top]; try discriminate. simpl.
  destruct (dict_get "stark" top) as [s|]; [|discriminate]. simpl.
  destruct s as [| | | | |stark]; try discriminate. simpl.
  destruct (dict_get "fri" stark) as [f|]; [|discriminate]. simpl.
  destruct f as [| | | | |fri]; try discriminate. simpl.
  intros _. eexists. reflexivity.
Qed.

(** The assignment leaves the bound as it was. *)
Lemma assign_fri_step_list_bound (config value patched : json) :
  assign_fri_step_list config value = Ok patched ->
  last_layer_degree_bound patched = last_layer_degree_bound config.
Proof.
  intros H. apply assign_fri_step_list_inv in H.
  destruct H as (top & stark & fri & -> & Hs & Hf & ->).
  unfold last_layer_degree_bound. simpl.
  rewrite dict_get_set_eq, Hs. simpl.
  rewrite dict_get_set_eq, Hf. simpl.
  rewrite dict_get_set_ne by discriminate. reflexivity.
Qed.

(** Assigning the same value again changes nothing. *)
Lemma assign_fri_step_list_again (config value patched : json) :
  assign_fri_step_list config value = Ok patched ->
  assign_fri_step_list patched value = Ok patched.
Proof.
  intros H. apply assign_fri_step_list_inv in H.
  destruct H as (top & stark & fri & -> & Hs & Hf & ->).
  unfold assign_fri_step_list. simpl.
  rewrite dict_get_set_eq. simpl.
  rewrite dict_get_set_eq. simpl.
  rewrite !dict_set_set. reflexivity.
Qed.

(** The frame of the assignment: the field holds the new value, every path
    off the branch of the field leads where it led, and the dicts above the
    field keep their keys in order ([fri] gains the key when it was
    missing). *)
Lemma assign_fri_step_list_frame (config value patched : json) :
  assign_fri_step_list config value = Ok patched ->
  get_path fri_step_list_path patched = Some value /\
  (forall p : list string,
     ~ fri_step_list_path `prefix_of` p ->
     ~ p `prefix_of` fri_step_list_path ->
     get_path p patched = get_path p config) /\
  keys_at [] patched = keys_at [] config /\
  keys_at ["stark"] patched = keys_at ["stark"] config /\
  keys_at ["stark"; "fri"] patched =
    match get_path fri_step_list_path config with
    | Some _ => keys_at ["stark"; "fri"] config
    | None =>
        (fun ks => ks ++ ["fri_step_list"])
          <$> keys_at ["stark"; "fri"] config
    end.
Proof.
  intros H. apply assign_fri_step_list_inv in H.
  destruct H as (top & stark & fri & -> & Hs & Hf & ->).
  unfold fri_step_list_path, keys_at.
  repeat first
    [ rewrite dict_get_set_eq | rewrite Hs | rewrite Hf | progress simpl ].
  split; [reflexivity|]. split; [|split; [|split]].
  - intros p Hoff Hon.
    destruct p as [|k1 p]; [exfalso; apply Hon, prefix_nil|]. simpl.
    destruct (String.eqb_spec "stark" k1) as [<-|Hk1];
      [|rewrite dict_get_set_ne by assumption; reflexivity].
    rewrite dict_get_set_eq, Hs.
    destruct p as [|k2 p];
      [exfalso; apply Hon, prefix_cons, prefix_nil|]. simpl.
    destruct (String.eqb_spec "fri" k2) as [<-|Hk2];
      [|rewrite dict_get_set_ne by assumption; reflexivity].
    rewrite dict_get_set_eq, Hf.
    destruct p as [|k3 p];
      [exfalso; apply Hon, prefix_cons, prefix_cons, prefix_nil|]. simpl.
    destruct (String.eqb_spec "fri_step_list" k3) as [<-|Hk3];
      [|rewrite dict_get_set_ne by assumption; reflexivity].
    exfalso. apply Hoff. exists p. reflexivity.
  - rewrite dict_keys_set, Hs. reflexivity.
  - rewrite dict_keys_set, Hf. reflexivity.
  - rewrite dict_keys_set.
    destruct (dict_get "fri_step_list" fri); reflexivity.
Qed.

(** The patcher, one case per way it can end. *)
Lemma update_parameter_file_unfold
    (parameter_file_path tmpdir : string) (n_steps : json) (w : world) :
  update_parameter_file parameter_file_path tmpdir n_steps w =
  match files w !! parameter_file_path with
  | None => (Raise (FileNotFoundError parameter_file_path), w)
  | Some (RawFile _) => (Raise JSONDecodeError, w)
  | Some (BinaryFile _) => (Raise UnicodeDecodeError, w)
  | Some (JsonFile config) =>
      match compute_fri_step_list n_steps config with
      | Raise e => (Raise e, w)
      | Ok l =>
          match assign_fri_step_list config (int_list l) with
          | Raise e => (Raise e, w)
          | Ok config' =>
              (Ok (updated_file_path tmpdir),
               World
                 (<[updated_file_path tmpdir := JsonFile config']> (files w))
                 (logs w
                    ++ [(INFO,
                         UpdatedParameterFileSaved
                           (updated_file_path tmpdir))]))
          end
      end
  end.
Proof.
  unfold update_parameter_file, St.bind, St.lift, json_load.
  destruct (files w !! parameter_file_path) as [[config| |]|]; reflexivity.
Qed.

Lemma compute_fri_step_list_reads_bound (n_steps config : json) (l : list Z) :
  compute_fri_step_list n_steps config = Ok l ->
  exists bound, last_layer_degree_bound config = Ok bound.
Proof.
  rewrite compute_fri_step_list_unfold.
  destruct (ceil_log2 n_steps); simpl; [|discriminate].
  destruct (last_layer_degree_bound config) as [b|]; [|discriminate].
  intros _. exists b. reflexivity.
Qed.

(** The derivation gives the same list on two configurations with the same
    bound. *)
Lemma compute_fri_step_list_same_bound (n_steps c1 c2 : json) :
  last_layer_degree_bound c1 = last_layer_degree_bound c2 ->
  compute_fri_step_list n_steps c1 = compute_fri_step_list n_steps c2.
Proof.
  intros H. rewrite !compute_fri_step_list_unfold, H. reflexivity.
Qed.

(** A successful run of the patcher: the list was derived, the assignment
    made, the document written and one line logged. *)
Lemma update_parameter_file_ok
    (parameter_file_path tmpdir : string) (n_steps config : json)
    (l : list Z) (w : world) :
  files w !! parameter_file_path = Some (JsonFile config) ->
  compute_fri_step_list n_steps config = Ok l ->
  exists config' : json,
    assign_fri_step_list config (int_list l) = Ok config' /\
    update_parameter_file parameter_file_path tmpdir n_steps w =
    (Ok (updated_file_path tmpdir),
     World (<[updated_file_path tmpdir := JsonFile config']> (files w))
       (logs w
          ++ [(INFO, UpdatedParameterFileSaved (updated_file_path tmpdir))])).
Proof.
  intros Hfile Hl. rewrite update_parameter_file_unfold, Hfile, Hl.
  destruct (compute_fri_step_list_reads_bound _ _ _ Hl) as [b Hb].
  destruct (assign_fri_step_list_defined config (int_list l) b Hb)
    as [config' Hc].
  exists config'. rewrite Hc. auto.
Qed.

(** A successful run, read backwards. *)
Lemma update_parameter_file_ok_inv
    (parameter_file_path tmpdir : string) (n_steps : json)
    (w w' : world) (out : string) :
  update_parameter_file parameter_file_path tmpdir n_steps w = (Ok out, w') ->
  exists (config config' : json) (l : list Z),
    files w !! parameter_file_path = Some (JsonFile config) /\
    compute_fri_step_list n_steps config = Ok l /\
    assign_fri_step_list config (int_list l) = Ok config' /\
    out = updated_file_path tmpdir /\
    w' =
      World (<[updated_file_path tmpdir := JsonFile config']> (files w))
        (logs w
           ++ [(INFO, UpdatedParameterFileSaved (updated_file_path tmpdir))]).
Proof.
  rewrite update_parameter_file_unfold.
  destruct (files w !! parameter_file_path) as [[config| |]|];
    try discriminate.
  destruct (compute_fri_step_list n_steps config) as [l|] eqn:Hl;
    try discriminate.
  destruct (assign_fri_step_list config (int_list l)) as [config'|] eqn:Hc;
    try discriminate.
  intros [= <- <-]. exists config, config', l. auto.
Qed.

(** With 1024 steps and the bound 64 of the baseline the new value of the
    field is [[0; 4; 4]], not [[0; 4; 4; 4]]. *)
Lemma update_parameter_file_1024_bound_64 :
  exists (patched : json) (w' : world),
    update_parameter_file PARAMETER_FILE "/tmp/tmpk3v9" (JInt 1024)
      (baseline_world (sample_config 64))
    = (Ok "/tmp/tmpk3v9/updated_cpu_air_params.json", w') /\
    files w' !! "/tmp/tmpk3v9/updated_cpu_air_params.json"
    = Some (JsonFile patched) /\
    get_path fri_step_list_path patched = Some (int_list [0; 4; 4]%Z) /\
    get_path fri_step_list_path patched
    <> Some (int_list [0; 4; 4; 4]%Z).
Proof.
  destruct (update_parameter_file_ok PARAMETER_FILE "/tmp/tmpk3v9"
              (JInt 1024) (sample_config 64) [0; 4; 4]%Z
              (baseline_world (sample_config 64)))
    as (patched & Hassign & Hrun); [reflexivity | reflexivity |].
  exists patched. eexists. split; [exact Hrun|].
  split; [apply lookup_insert_eq|].
  apply assign_fri_step_list_frame in Hassign.
  destruct Hassign as [-> _]. split; [reflexivity|discriminate].
Qed.

(** C5, amended: from a baseline whose [stark.fri.last_layer_degree_bound]
    is a positive integer with binary logarithm ceiling 2 (3 or 4) and
    1024 steps, the patcher writes a document whose [stark.fri.fri_step_list]
    is [[0; 4; 4; 4]]; every path off that field leads where it led in the
    baseline, and the dicts above the field keep their keys in order. *)
Theorem update_parameter_file_1024
    (w : world) (parameter_file_path tmpdir : string)
    (baseline : json) (bound : Z) :
  files w !! parameter_file_path = Some (JsonFile baseline) ->
  last_layer_degree_bound baseline = Ok (JInt bound) ->
  (0 < bound)%Z ->
  is_ceil_log2 bound 2 ->
  exists patched : json,
    update_parameter_file parameter_file_path tmpdir (JInt 1024) w =
    (Ok (updated_file_path tmpdir),
     World (<[updated_file_path tmpdir := JsonFile patched]> (files w))
       (logs w
          ++ [(INFO, UpdatedParameterFileSaved (updated_file_path tmpdir))]))
    /\
    get_path fri_step_list_path patched = Some (int_list [0; 4; 4; 4]%Z) /\
    (forall p : list string,
       ~ fri_step_list_path `prefix_of` p ->
       ~ p `prefix_of` fri_step_list_path ->
       get_path p patched = get_path p baseline) /\
    keys_at [] patched = keys_at [] baseline /\
    keys_at ["stark"] patched = keys_at ["stark"] baseline /\
    keys_at ["stark"; "fri"] patched =
      match get_path fri_step_list_path baseline with
      | Some _ => keys_at ["stark"; "fri"] baseline
      | None =>
          (fun ks => ks ++ ["fri_step_list"])
            <$> keys_at ["stark"; "fri"] baseline
      end.
Proof.
  intros Hfile Hbound Hpos Hlog.
  assert (Hb : bound = 3%Z \/ bound = 4%Z).
  { destruct Hlog as (_ & Hle & Hleast). change (2 ^ 2)%Z with 4%Z in Hle.
    destruct (Z_le_gt_dec bound 2) as [Hsmall|Hlarge]; [|lia].
    specialize (Hleast 1%Z ltac:(lia)).
    change (2 ^ 1)%Z with 2%Z in Hleast. lia. }
  assert (Hl : compute_fri_step_list (JInt 1024) baseline
               = Ok [0; 4; 4; 4]%Z).
  { rewrite compute_fri_step_list_unfold, Hbound.
    destruct Hb as [-> | ->]; vm_compute; reflexivity. }
  destruct (update_parameter_file_ok parameter_file_path tmpdir
              (JInt 1024) baseline _ w Hfile Hl)
    as (patched & Hassign & Hrun).
  exists patched. split; [exact Hrun|].
  apply assign_fri_step_list_frame. exact Hassign.
Qed.

Lemma update_parameter_file_1024_witness :
  exists patched : json,
    update_parameter_file PARAMETER_FILE "/tmp/tmpk3v9" (JInt 1024)
      (baseline_world (sample_config 4))
    = (Ok (updated_file_path "/tmp/tmpk3v9"),
       World
         (<[updated_file_path "/tmp/tmpk3v9" := JsonFile patched]>
            (files (baseline_world (sample_config 4))))
         (logs (baseline_world (sample_config 4))
            ++ [(INFO,
                 UpdatedParameterFileSaved
                   (updated_file_path "/tmp/tmpk3v9"))]))
    /\
    get_path fri_step_list_path patched = Some (int_list [0; 4; 4; 4]%Z) /\
    (forall p : list string,
       ~ fri_step_list_path `prefix_of` p ->
       ~ p `prefix_of` fri_step_list_path ->
       get_path p patched = get_path p (sample_config 4)) /\
    keys_at [] patched = keys_at [] (sample_config 4) /\
    keys_at ["stark"] patched = keys_at ["stark"] (sample_config 4) /\
    keys_at ["stark"; "fri"] patched =
      match get_path fri_step_list_path (sample_config 4) with
      | Some _ => keys_at ["stark"; "fri"] (sample_config 4)
      | None =>
          (fun ks => ks ++ ["fri_step_list"])
            <$> keys_at ["stark"; "fri"] (sample_config 4)
      end.
Proof.
  apply (update_parameter_file_1024 (baseline_world (sample_config 4))
           PARAMETER_FILE "/tmp/tmpk3v9" (sample_config 4) 4).
  - reflexivity.
  - reflexivity.
  - lia.
  - replace 2%Z with (Z.log2_up 4) by reflexivity.
    apply is_ceil_log2_log2_up. lia.
Defined.

(** C6: the patcher is a function of the baseline document and [n_steps]
    alone.  Two runs from worlds that hold the same baseline, each in a
    directory of its own, both fail with the same exception or both
    succeed and leave the same document at their output paths; a second
    run after a first one returns the same path and leaves every file as
    the first run left it. *)
Theorem update_parameter_file_pure
    (w1 w2 : world) (parameter_file_path tmpdir1 tmpdir2 : string)
    (n_steps : json) :
  files w1 !! parameter_file_path = files w2 !! parameter_file_path ->
  match
    update_parameter_file parameter_file_path tmpdir1 n_steps w1,
    update_parameter_file parameter_file_path tmpdir2 n_steps w2
  with
  | (Ok out1, w1'), (Ok out2, w2') =>
      out1 = updated_file_path tmpdir1 /\
      out2 = updated_file_path tmpdir2 /\
      exists patched : json,
        files w1' !! out1 = Some (JsonFile patched) /\
        files w2' !! out2 = Some (JsonFile patched)
  | (Raise e1, _), (Raise e2, _) => e1 = e2
  | _, _ => False
  end /\
  (forall (out : string) (w1' : world),
     update_parameter_file parameter_file_path tmpdir1 n_steps w1
     = (Ok out, w1') ->
     exists w1'' : world,
       update_parameter_file parameter_file_path tmpdir1 n_steps w1'
       = (Ok out, w1'') /\
       files w1'' = files w1').
Proof.
  intros Hsame. split.
  - rewrite !update_parameter_file_unfold, <- Hsame.
    destruct (files w1 !! parameter_file_path) as [[config| |]|];
      try reflexivity.
    destruct (compute_fri_step_list n_steps config) as [l|]; try reflexivity.
    destruct (assign_fri_step_list config (int_list l)) as [patched|];
      try reflexivity.
    split; [reflexivity|]. split; [reflexivity|].
    exists patched. simpl. rewrite !lookup_insert_eq. auto.
  - intros out w1' Hrun.
    apply update_parameter_file_ok_inv in Hrun.
    destruct Hrun as (config & patched & l & Hfile & Hl & Hassign & -> & ->).
    rewrite update_parameter_file_unfold. simpl.
    destruct (decide (updated_file_path tmpdir1 = parameter_file_path))
      as [Heq|Hne].
    + rewrite <- Heq, lookup_insert_eq.
      rewrite (compute_fri_step_list_same_bound n_steps patched config)
        by (eapply assign_fri_step_list_bound; eassumption).
      rewrite Hl, (assign_fri_step_list_again _ _ _ Hassign).
      eexists. split; [reflexivity|]. simpl. apply insert_insert_eq.
    + rewrite lookup_insert_ne, Hfile, Hl, Hassign by assumption.
      eexists. split; [reflexivity|]. simpl. apply insert_insert_eq.
Qed.

Lemma update_parameter_file_pure_witness :
  match
    update_parameter_file PARAMETER_FILE "/tmp/tmpk3v9" (JInt 1024)
      (baseline_world (sample_config 64)),
    update_parameter_file PARAMETER_FILE "/tmp/tmpq7xd" (JInt 1024)
      busy_world
  with
  | (Ok out1, w1'), (Ok out2, w2') =>
      out1 = updated_file_path "/tmp/tmpk3v9" /\
      out2 = updated_file_path "/tmp/tmpq7xd" /\
      exists patched : json,
        files w1' !! out1 = Some (JsonFile patched) /\
        files w2' !! out2 = Some (JsonFile patched)
  | (Raise e1, _), (Raise e2, _) => e1 = e2
  | _, _ => False
  end /\
  (forall (out : string) (w1' : world),
     update_parameter_file PARAMETER_FILE "/tmp/tmpk3v9" (JInt 1024)
       (baseline_world (sample_config 64)) = (Ok out, w1') ->
     exists w1'' : world,
       update_parameter_file PARAMETER_FILE "/tmp/tmpk3v9" (JInt 1024) w1'
       = (Ok out, w1'') /\
       files w1'' = files w1').
Proof.
  apply (update_parameter_file_pure
           (baseline_world (sample_config 64)) busy_world
           PARAMETER_FILE "/tmp/tmpk3v9" "/tmp/tmpq7xd" (JInt 1024)).
  reflexivity.
Defined.

(** ** The run command *)

Lemma string_append_cons (c : ascii) (s1 s2 : string) :
  String c s1 +:+ s2 = String c (s1 +:+ s2).
Proof. reflexivity. Qed.

Lemma string_length_append (s1 s2 : string) :
  String.length (s1 +:+ s2) = (String.length s1 + String.length s2)%nat.
Proof.
  induction s1 as [|c s1 IH]; [reflexivity|].
  rewrite string_append_cons. simpl. rewrite IH. reflexivity.
Qed.

Lemma string_append_assoc (s1 s2 s3 : string) :
  (s1 +:+ s2) +:+ s3 = s1 +:+ (s2 +:+ s3).
Proof.
  induction s1 as [|c s1 IH]; [reflexivity|].
  rewrite !string_append_cons, IH. reflexivity.
Qed.

Lemma string_drop_append (s1 s2 : string) :
  string_drop (String.length s1) (s1 +:+ s2) = s2.
Proof.
  induction s1 as [|c s1 IH]; [destruct s2; reflexivity|].
  rewrite string_append_cons. simpl. exact IH.
Qed.

(** Joining a relative name keeps the name as the end of the path. *)
Lemma os_path_join_relative (a b : string) :
  String.prefix "/" b = false -> exists pre, os_path_join a b = pre +:+ b.
Proof.
  intros Hrel. unfold os_path_join. rewrite Hrel.
  destruct (orb (String.eqb a "") (ends_with_sep a)).
  - exists a. reflexivity.
  - exists (a +:+ "/"). rewrite string_append_assoc. reflexivity.
Qed.

Lemma os_path_join_other_end (a b s : string) :
  String.prefix "/" b = false ->
  string_drop (String.length s - String.length b) s <> b ->
  os_path_join a b <> s.
Proof.
  intros Hrel Hend Heq. apply Hend.
  destruct (os_path_join_relative a b Hrel) as [pre Hpre].
  rewrite <- Heq, Hpre, string_length_append.
  replace (String.length pre + String.length b - String.length b)%nat
    with (String.length pre) by lia.
  apply string_drop_append.
Qed.

(** The list built in line by [process_layout] is the one
    [build_cairo_run_command] would build from the same paths. *)
Lemma cairo_run_command_build (layout tmpdir : string) :
  cairo_run_command layout tmpdir =
  build_cairo_run_command layout
    (os_path_join tmpdir "fibonacci_compiled.json")
    (os_path_join tmpdir "fibonacci_trace.bin")
    (os_path_join tmpdir "fibonacci_memory.bin")
    (os_path_join tmpdir "fibonacci_public_input.json")
    (os_path_join tmpdir "fibonacci_private_input.json").
Proof. reflexivity. Qed.

Lemma append_longer (a b s : string) :
  (String.length s <? String.length b)%nat = true ->
  String.eqb s (a +:+ b) = false.
Proof.
  intros Hlen. apply String.eqb_neq. intros ->.
  rewrite string_length_append in Hlen. apply Nat.ltb_lt in Hlen. lia.
Qed.

(** An argument shorter than the file name of the layout parameters is
    not the value of the flag. *)
Ltac short_argument s H :=
  rewrite (append_longer _ "/cairo_layout_params.json" s) in H by reflexivity.

Lemma build_cairo_run_command_flag
    (layout compiled_output trace_file memory_file
     public_input_file private_input_file : string) :
  has_flag_value LAYOUT_PARAMS_FLAG (layout +:+ "/cairo_layout_params.json")
    (build_cairo_run_command layout compiled_output trace_file memory_file
       public_input_file private_input_file) = true
  <-> layout = "dynamic".
Proof.
  unfold build_cairo_run_command, LAYOUT_PARAMS_FLAG.
  destruct (String.eqb_spec layout "dynamic") as [->|Hne]; split; auto.
  - intros _. simpl. rewrite !andb_false_r. reflexivity.
  - intros H. exfalso. cbn [has_flag_value app] in H.
    short_argument "--layout" H. short_argument "--proof_mode" H.
    short_argument "--memory_file" H. short_argument "--air_private_input" H.
    short_argument "--air_public_input" H. short_argument "--print_info" H.
    rewrite !andb_false_r in H. vm_compute in H. discriminate.
Qed.

(** A path made in the temporary directory is not the flag. *)
Ltac not_the_flag H :=
  first
    [ discriminate H
    | exfalso; revert H; apply os_path_join_other_end;
      [reflexivity | vm_compute; discriminate] ].

Lemma cairo_run_command_no_flag (layout tmpdir : string) :
  layout <> "dynamic" ->
  layout <> LAYOUT_PARAMS_FLAG ->
  ~ In LAYOUT_PARAMS_FLAG (cairo_run_command layout tmpdir).
Proof.
  intros Hdyn Hflag Hin. unfold cairo_run_command in Hin.
  apply String.eqb_neq in Hdyn. rewrite Hdyn in Hin.
  unfold LAYOUT_PARAMS_FLAG, PROGRAM_INPUT_FILE in *.
  cbn [In] in Hin.
  repeat (destruct Hin as [Hin|Hin]; [try not_the_flag Hin|]);
    [congruence | contradiction].
Qed.

(** C9: the command for the run step carries the flag
    [--cairo_layout_params_file] with the value
    [{layout}/cairo_layout_params.json] exactly when the layout is
    ["dynamic"], in [build_cairo_run_command] and in the list
    [process_layout] builds; for the layouts of the default list the flag
    does not occur in the command at all. *)
Theorem cairo_run_command_dynamic_flag (layout tmpdir : string) :
  (has_flag_value LAYOUT_PARAMS_FLAG
     (layout +:+ "/cairo_layout_params.json")
     (cairo_run_command layout tmpdir) = true
   <-> layout = "dynamic") /\
  (forall compiled_output trace_file memory_file
          public_input_file private_input_file : string,
     has_flag_value LAYOUT_PARAMS_FLAG
       (layout +:+ "/cairo_layout_params.json")
       (build_cairo_run_command layout compiled_output trace_file
          memory_file public_input_file private_input_file) = true
     <-> layout = "dynamic") /\
  Forall
    (fun default =>
       ~ In LAYOUT_PARAMS_FLAG (cairo_run_command default tmpdir))
    LAYOUTS.
Proof.
  split; [|split].
  - rewrite cairo_run_command_build. apply build_cairo_run_command_flag.
  - intros. apply build_cairo_run_command_flag.
  - unfold LAYOUTS.
    repeat constructor; apply cairo_run_command_no_flag; discriminate.
Qed.

Example cairo_run_command_dynamic :
  cairo_run_command "dynamic" "/tmp/tmpk3v9" =
  [ "cairo-run"; "--program"; "/tmp/tmpk3v9/fibonacci_compiled.json";
    "--layout"; "dynamic"; "--proof_mode";
    "--program_input"; "fibonacci_input.json";
    "--trace_file"; "/tmp/tmpk3v9/fibonacci_trace.bin";
    "--memory_file"; "/tmp/tmpk3v9/fibonacci_memory.bin";
    "--air_private_input"; "/tmp/tmpk3v9/fibonacci_private_input.json";
    "--air_public_input"; "/tmp/tmpk3v9/fibonacci_public_input.json";
    "--print_info"; "--print_output";
    "--cairo_layout_params_file"; "dynamic/cairo_layout_params.json" ].
Proof. reflexivity. Qed.

(** ** The main loop *)

Lemma processed_app (l1 l2 : list (level * message)) :
  processed (l1 ++ l2) = processed l1 ++ processed l2.
Proof.
  induction l1 as [|[lvl msg] l1 IH]; [reflexivity|].
  destruct msg; simpl; rewrite IH; reflexivity.
Qed.

Lemma silent_no_log {A} (m : M A) :
  (forall w, logs (m w).2 = logs w) -> silent m.
Proof.
  intros H w. exists []. rewrite H, app_nil_r. auto.
Qed.

Lemma silent_ret {A} (a : A) : silent (St.ret a).
Proof. apply silent_no_log. reflexivity. Qed.

Lemma silent_raise {A} (e : exn) : silent (@St.raise A e).
Proof. apply silent_no_log. reflexivity. Qed.

Lemma silent_lift {A} (r : result A) : silent (St.lift r).
Proof. apply silent_no_log. reflexivity. Qed.

Lemma silent_bind {A B} (m : M A) (k : A -> M B) :
  silent m -> (forall a, silent (k a)) -> silent (St.bind m k).
Proof.
  intros Hm Hk w. unfold St.bind.
  destruct (Hm w) as (e1 & He1 & Hp1).
  destruct (m w) as [[a|e] w1]; simpl in *.
  - destruct (Hk a w1) as (e2 & He2 & Hp2).
    exists (e1 ++ e2). rewrite He2, He1, app_assoc, processed_app, Hp1, Hp2.
    auto.
  - exists e1. auto.
Qed.

Lemma silent_try_except {A} (body : M A) (handler : exn -> M A) :
  silent body -> (forall e, silent (handler e)) ->
  silent (St.try_except body handler).
Proof.
  intros Hm Hk w. unfold St.try_except.
  destruct (Hm w) as (e1 & He1 & Hp1).
  destruct (body w) as [[a|e] w1]; simpl in *.
  - exists e1. auto.
  - destruct (Hk e w1) as (e2 & He2 & Hp2).
    exists (e1 ++ e2). rewrite He2, He1, app_assoc, processed_app, Hp1, Hp2.
    auto.
Qed.

Lemma silent_logging (lvl : level) (msg : message) :
  processed [(lvl, msg)] = [] -> silent (logging lvl msg).
Proof. intros H w. exists [(lvl, msg)]. auto. Qed.

Lemma silent_json_load (path : string) : silent (json_load path).
Proof.
  apply silent_no_log. intros w. unfold json_load.
  destruct (files w !! path) as [[doc| |]|]; reflexivity.
Qed.

Lemma silent_json_dump (doc : json) (path : string) :
  silent (json_dump doc path).
Proof. apply silent_no_log. reflexivity. Qed.

Create HintDb silent discriminated.
#[local] Hint Resolve silent_ret silent_raise silent_lift
  silent_json_load silent_json_dump : silent.
#[local] Hint Extern 1 (silent (logging_info _)) =>
  (apply silent_logging; reflexivity) : silent.
#[local] Hint Extern 1 (silent (logging_error _)) =>
  (apply silent_logging; reflexivity) : silent.
#[local] Hint Extern 4 (silent (St.bind _ _)) =>
  (apply silent_bind; [|intros ?]; cbv beta zeta) : silent.

Lemma silent_extract_steps (public_input_file : string) :
  silent (extract_steps public_input_file).
Proof. unfold extract_steps. auto with silent. Qed.

Lemma silent_update_parameter_file
    (parameter_file_path tmpdir : string) (n_steps : json) :
  silent (update_parameter_file parameter_file_path tmpdir n_steps).
Proof. unfold update_parameter_file. auto 10 with silent. Qed.

#[local] Hint Resolve silent_extract_steps silent_update_parameter_file
  : silent.

Section PipelineProperties.

Variable subprocess_run :
  list string -> gmap string file -> outcome * gmap string file.
Variable mkdtemp : gmap string file -> string.

Lemma silent_subprocess_run_check (command : list string) :
  silent (subprocess_run_check subprocess_run command).
Proof.
  apply silent_no_log. intros w. unfold subprocess_run_check.
  destruct (subprocess_run command (files w)) as [[[|p|p]|] fs];
    reflexivity.
Qed.

Lemma silent_run_command (command : list string) :
  silent (run_command subprocess_run command).
Proof.
  pose proof silent_subprocess_run_check.
  unfold run_command. apply silent_try_except; [auto with silent|].
  intros e. destruct e; auto with silent.
Qed.

Lemma silent_with_temporary_directory {A} (body : string -> M A) :
  (forall tmpdir, silent (body tmpdir)) ->
  silent (with_temporary_directory mkdtemp body).
Proof.
  intros Hbody w. unfold with_temporary_directory.
  destruct (Hbody (mkdtemp (files w)) w) as (extra & He & Hp).
  destruct (body (mkdtemp (files w)) w) as [r w']. simpl in *.
  exists extra. auto.
Qed.

(** Processing a layout announces it once, whatever happens next. *)
Lemma process_layout_processed (layout : string) (w : world) :
  processed (logs (process_layout subprocess_run mkdtemp layout w).2)
  = processed (logs w) ++ [layout].
Proof.
  assert (Hrest : forall A (m : M A),
             silent m ->
             processed
               (logs
                  (St.bind (logging_info (ProcessingLayout layout))
                     (fun _ => m) w).2)
             = processed (logs w) ++ [layout]).
  { intros A m Hm. unfold St.bind, logging_info, logging.
    destruct (Hm (World (files w)
                    (logs w ++ [(INFO, ProcessingLayout layout)])))
      as (extra & He & Hp).
    destruct (m _) as [r w']. simpl in *.
    rewrite He, !processed_app, Hp, app_nil_r. reflexivity. }
  unfold process_layout. apply Hrest.
  apply silent_with_temporary_directory. intros tmpdir.
  pose proof silent_run_command. cbv beta zeta. auto 10 with silent.
Qed.

Lemma main_loop_processed (layouts : list string) (w : world) :
  exists w' : world,
    main_loop subprocess_run mkdtemp layouts w = (Ok tt, w') /\
    processed (logs w') = processed (logs w) ++ layouts.
Proof.
  revert w. induction layouts as [|layout rest IH]; intros w.
  - exists w. rewrite app_nil_r. auto.
  - simpl. unfold St.bind, St.try_except.
    pose proof (process_layout_processed layout w) as Hp.
    destruct (process_layout subprocess_run mkdtemp layout w)
      as [[[]|e] w1]; simpl in Hp.
    + destruct (IH w1) as (w' & Hrun & Hw').
      exists w'. rewrite Hrun, Hw', Hp, <- app_assoc. auto.
    + unfold logging_error, logging.
      destruct (IH (World (files w1)
                      (logs w1 ++ [(ERROR, ErrorProcessingLayout layout e)])))
        as (w' & Hrun & Hw').
      exists w'. rewrite Hrun, Hw'. simpl.
      rewrite processed_app, Hp, app_nil_r, <- app_assoc. auto.
Qed.

End PipelineProperties.

(** C7: the main loop takes the layouts in the order dex, recursive,
    recursive_with_poseidon, small, starknet, starknet_with_keccak.  It
    never raises: an exception of [process_layout], such as the
    [CalledProcessError] of a command that exits with a status other than
    0, is logged and the loop goes on with the layouts that remain, so
    every layout is announced, in order, whatever the external programs
    do. *)
Theorem main_processes_every_layout
    (subprocess_run :
       list string -> gmap string file -> outcome * gmap string file)
    (mkdtemp : gmap string file -> string) (w : world) :
  (exists w' : world,
     main subprocess_run mkdtemp w = (Ok tt, w') /\
     processed (logs w') =
       processed (logs w)
         ++ [ "dex"; "recursive"; "recursive_with_poseidon"; "small";
              "starknet"; "starknet_with_keccak" ]) /\
  (forall (layout : string) (rest : list string) (e : exn) (w0 w1 : world),
     process_layout subprocess_run mkdtemp layout w0 = (Raise e, w1) ->
     main_loop subprocess_run mkdtemp (layout :: rest) w0 =
     main_loop subprocess_run mkdtemp rest
       (World (files w1)
          (logs w1 ++ [(ERROR, ErrorProcessingLayout layout e)]))) /\
  (forall (command : list string) (returncode : Z) (w0 : world),
     (subprocess_run command (files w0)).1 = Exit returncode ->
     returncode <> 0%Z ->
     (run_command subprocess_run command w0).1 =
     Raise (CalledProcessError command returncode)).
Proof.
  split; [|split].
  - apply (main_loop_processed subprocess_run mkdtemp LAYOUTS w).
  - intros layout rest e w0 w1 Hraise. simpl.
    unfold St.bind, St.try_except. rewrite Hraise. reflexivity.
  - intros command returncode w0 Hexit Hcode.
    unfold run_command, St.try_except, St.bind, subprocess_run_check,
      logging_info, logging. simpl.
    destruct (subprocess_run command (files w0)) as [o fs].
    simpl in Hexit. subst o.
    destruct returncode; [contradiction| |]; reflexivity.
Qed.

(** Every command exits with status 1: each layout is announced and each
    is reported as failed. *)
Example main_all_commands_fail :
  let w' := (main always_fails fixed_tmpdir (World ∅ [])).2 in
  processed (logs w') = LAYOUTS /\ failed (logs w') = LAYOUTS.
Proof. vm_compute. split; reflexivity. Qed.

(** With the stand-in toolchain only [dex] fails; the other layouts get
    their proof, the temporary files are gone and the baseline is as it
    was. *)
Example main_one_layout_fails :
  let w' :=
    (main toolchain fixed_tmpdir (baseline_world (sample_config 64))).2 in
  processed (logs w') = LAYOUTS /\
  failed (logs w') = ["dex"] /\
  files w' !! "dex/cairo0_stone6_keccak_160_lsb_example_proof.json" = None /\
  files w' !! "small/cairo0_stone6_keccak_160_lsb_example_proof.json"
  = Some (RawFile "proof") /\
  files w' !! "/tmp/tmpk3v9/updated_cpu_air_params.json" = None /\
  files w' !! PARAMETER_FILE = Some (JsonFile (sample_config 64)).
Proof. vm_compute. repeat split; reflexivity. Qed.

(** * Further properties *)

(** ** The step list, whatever the inputs *)

Lemma Forall_repeat_same {A} (P : A -> Prop) (x : A) (k : nat) :
  P x -> Forall P (repeat x k).
Proof. intros Hx. induction k; simpl; constructor; assumption. Qed.

(** X1: a list that [compute_fri_step_list] returns starts with [0] and
    every element after it lies between 1 and 4, for any [n_steps] and
    configuration on which it returns at all. *)
Theorem compute_fri_step_list_range
    (n_steps config : json) (l : list Z) :
  compute_fri_step_list n_steps config = Ok l ->
  exists rest : list Z,
    l = 0%Z :: rest /\ Forall (fun x => (1 <= x <= 4)%Z) rest.
Proof.
  rewrite compute_fri_step_list_unfold.
  destruct (ceil_log2 n_steps) as [sl|]; simpl; [|discriminate].
  destruct (last_layer_degree_bound config) as [b|]; simpl; [|discriminate].
  destruct (ceil_log2 b) as [bl|]; simpl; [|discriminate].
  intros [= <-]. eexists. split; [reflexivity|].
  apply Forall_app. split.
  - apply Forall_repeat_same. lia.
  - pose proof (Z.mod_pos_bound (sl + 4 - bl) 4 ltac:(lia)) as Hr.
    destruct (0 <? (sl + 4 - bl) mod 4)%Z eqn:Hpos; constructor.
    + apply Z.ltb_lt in Hpos. lia.
    + constructor.
Qed.

Lemma compute_fri_step_list_range_witness :
  exists rest : list Z,
    [0; 4; 4]%Z = 0%Z :: rest /\ Forall (fun x => (1 <= x <= 4)%Z) rest.
Proof.
  apply (compute_fri_step_list_range (JInt 1024) (sample_config 64)).
  reflexivity.
Defined.

(** X2: with a positive [n_steps], a configuration that lacks [stark],
    [stark.fri] or [stark.fri.last_layer_degree_bound] makes the derivation
    raise [KeyError] for the first key that is missing, and a configuration
    that is a JSON array makes it raise [TypeError]. *)
Theorem compute_fri_step_list_missing_key
    (n_steps : Z) (top stark fri : list (string * json)) :
  (0 < n_steps)%Z ->
  (dict_get "stark" top = None ->
   compute_fri_step_list (JInt n_steps) (JObj top)
   = Raise (KeyError "stark")) /\
  (dict_get "stark" top = Some (JObj stark) ->
   dict_get "fri" stark = None ->
   compute_fri_step_list (JInt n_steps) (JObj top)
   = Raise (KeyError "fri")) /\
  (dict_get "stark" top = Some (JObj stark) ->
   dict_get "fri" stark = Some (JObj fri) ->
   dict_get "last_layer_degree_bound" fri = None ->
   compute_fri_step_list (JInt n_steps) (JObj top)
   = Raise (KeyError "last_layer_degree_bound")) /\
  (forall items : list json,
     compute_fri_step_list (JInt n_steps) (JArr items) = Raise TypeError).
Proof.
  intros Hn. apply Z.ltb_lt in Hn.
  unfold compute_fri_step_list. simpl. rewrite Hn. simpl.
  split; [|split; [|split]].
  - intros ->. reflexivity.
  - intros -> . simpl. intros ->. reflexivity.
  - intros ->. simpl. intros ->. simpl. intros ->. reflexivity.
  - reflexivity.
Qed.

Lemma compute_fri_step_list_missing_key_witness :
  compute_fri_step_list (JInt 1024)
    (JObj [("stark", JObj [("fri", JObj [("n_queries", JInt 18)])])])
  = Raise (KeyError "last_layer_degree_bound").
Proof.
  apply (compute_fri_step_list_missing_key 1024
           [("stark", JObj [("fri", JObj [("n_queries", JInt 18)])])]
           [("fri", JObj [("n_queries", JInt 18)])]
           [("n_queries", JInt 18)]);
    [lia | reflexivity | reflexivity | reflexivity].
Defined.

(** X3: with a positive [n_steps], a [last_layer_degree_bound] that is an
    integer not above 0 makes the derivation raise [ValueError]. *)
Theorem compute_fri_step_list_bound_nonpositive
    (n_steps bound : Z) (config : json) :
  (0 < n_steps)%Z ->
  last_layer_degree_bound config = Ok (JInt bound) ->
  (bound <= 0)%Z ->
  compute_fri_step_list (JInt n_steps) config = Raise ValueError.
Proof.
  intros Hn Hcfg Hb. rewrite compute_fri_step_list_unfold. simpl.
  apply Z.ltb_lt in Hn. apply Z.ltb_ge in Hb.
  rewrite Hn. simpl. rewrite Hcfg. simpl. rewrite Hb. reflexivity.
Qed.

Lemma compute_fri_step_list_bound_nonpositive_witness :
  compute_fri_step_list (JInt 1024) (sample_config 0) = Raise ValueError.
Proof.
  apply (compute_fri_step_list_bound_nonpositive 1024 0 (sample_config 0));
    [lia | reflexivity | lia].
Defined.

(** ** Step extraction, the failing ways *)

(** X5: [extract_steps] never changes a file or logs a line.  It raises
    [FileNotFoundError] when the file is missing, [UnicodeDecodeError] when
    the file cannot be read as text, [JSONDecodeError] when the text is not
    JSON and [AttributeError] when the document is not an object. *)
Theorem extract_steps_errors (w : world) (public_input_file : string) :
  (extract_steps public_input_file w).2 = w /\
  (files w !! public_input_file = None ->
   (extract_steps public_input_file w).1
   = Raise (FileNotFoundError public_input_file)) /\
  (forall content : string,
     files w !! public_input_file = Some (BinaryFile content) ->
     (extract_steps public_input_file w).1 = Raise UnicodeDecodeError) /\
  (forall content : string,
     files w !! public_input_file = Some (RawFile content) ->
     (extract_steps public_input_file w).1 = Raise JSONDecodeError) /\
  (forall doc : json,
     files w !! public_input_file = Some (JsonFile doc) ->
     (forall fields, doc <> JObj fields) ->
     (extract_steps public_input_file w).1 = Raise AttributeError).
Proof.
  unfold extract_steps, St.bind, St.lift, json_load.
  split; [|split; [|split; [|split]]].
  - destruct (files w !! public_input_file) as [[doc| |]|]; reflexivity.
  - intros ->. reflexivity.
  - intros content ->. reflexivity.
  - intros content ->. reflexivity.
  - intros doc -> Hdoc. simpl.
    destruct doc; try reflexivity. exfalso. eapply Hdoc. reflexivity.
Qed.

Lemma extract_steps_errors_witness :
  (extract_steps "fibonacci_public_input.json" (World ∅ [])).1
  = Raise (FileNotFoundError "fibonacci_public_input.json").
Proof.
  apply (extract_steps_errors (World ∅ []) "fibonacci_public_input.json").
  reflexivity.
Defined.

(** X6: the value of [n_steps] is not checked to be an integer: a string
    is returned as it is; the derivation then raises [TypeError] for
    every configuration, and so does the patcher whenever the parameter
    file holds a JSON document, leaving the world as it was. *)
Theorem extract_steps_string
    (w : world) (public_input_file s : string)
    (fields : list (string * json)) :
  files w !! public_input_file = Some (JsonFile (JObj fields)) ->
  dict_get "n_steps" fields = Some (JStr s) ->
  extract_steps public_input_file w = (Ok (JStr s), w) /\
  (forall config : json,
     compute_fri_step_list (JStr s) config = Raise TypeError) /\
  (forall (parameter_file_path tmpdir : string) (config : json),
     files w !! parameter_file_path = Some (JsonFile config) ->
     update_parameter_file parameter_file_path tmpdir (JStr s) w
     = (Raise TypeError, w)).
Proof.
  intros Hpub Hn. split; [|split].
  - unfold extract_steps, St.bind, St.lift, json_load.
    rewrite Hpub. simpl. rewrite Hn. reflexivity.
  - reflexivity.
  - intros parameter_file_path tmpdir config Hcfg.
    rewrite update_parameter_file_unfold, Hcfg. reflexivity.
Qed.

Lemma extract_steps_string_witness :
  extract_steps "pub.json" string_steps_world
  = (Ok (JStr "1024"), string_steps_world) /\
  update_parameter_file PARAMETER_FILE "/tmp/tmpk3v9" (JStr "1024")
    string_steps_world
  = (Raise TypeError, string_steps_world).
Proof.
  destruct (extract_steps_string string_steps_world "pub.json" "1024"
              [("n_steps", JStr "1024")])
    as (Hextract & _ & Hupdate); [reflexivity | reflexivity |].
  split; [exact Hextract|].
  apply (Hupdate PARAMETER_FILE "/tmp/tmpk3v9" (sample_config 64)).
  reflexivity.
Defined.

(** ** The patcher, in general *)

Lemma assign_fri_step_list_assign (config v1 v2 patched : json) :
  assign_fri_step_list config v1 = Ok patched ->
  assign_fri_step_list patched v2 = assign_fri_step_list config v2.
Proof.
  intros H. apply assign_fri_step_list_inv in H.
  destruct H as (top & stark & fri & -> & Hs & Hf & ->).
  unfold assign_fri_step_list. simpl.
  rewrite dict_get_set_eq, Hs. simpl.
  rewrite dict_get_set_eq, Hf. simpl.
  rewrite !dict_set_set. reflexivity.
Qed.

Lemma updated_file_path_not_parameter_file (tmpdir : string) :
  updated_file_path tmpdir <> PARAMETER_FILE.
Proof.
  apply os_path_join_other_end; [reflexivity|]. vm_compute. discriminate.
Qed.

(** X7: when the patcher raises, nothing was written and nothing
    logged. *)
Theorem update_parameter_file_raise_unchanged
    (w w' : world) (parameter_file_path tmpdir : string)
    (n_steps : json) (e : exn) :
  update_parameter_file parameter_file_path tmpdir n_steps w = (Raise e, w') ->
  w' = w.
Proof.
  rewrite update_parameter_file_unfold.
  destruct (files w !! parameter_file_path) as [[config| |]|];
    try (intros [= _ <-]; reflexivity).
  destruct (compute_fri_step_list n_steps config) as [l|];
    try (intros [= _ <-]; reflexivity).
  destruct (assign_fri_step_list config (int_list l));
    [discriminate | intros [= _ <-]; reflexivity].
Qed.

Lemma update_parameter_file_raise_unchanged_witness :
  update_parameter_file PARAMETER_FILE "/tmp/tmpk3v9" (JInt 0)
    (baseline_world (sample_config 64))
  = (Raise ValueError, baseline_world (sample_config 64)) /\
  baseline_world (sample_config 64) = baseline_world (sample_config 64).
Proof.
  split; [reflexivity|].
  apply (update_parameter_file_raise_unchanged
           (baseline_world (sample_config 64))
           (baseline_world (sample_config 64))
           PARAMETER_FILE "/tmp/tmpk3v9" (JInt 0) ValueError).
  reflexivity.
Defined.

(** X8: the ways the patcher raises before it writes.  It raises
    [FileNotFoundError] for a missing parameter file, [UnicodeDecodeError]
    for one that cannot be read as text, [JSONDecodeError] for a text that
    is not JSON, and on a JSON document whatever the derivation raises.
    Once the derivation has succeeded, the assignment of the field cannot
    fail. *)
Theorem update_parameter_file_raises
    (w : world) (parameter_file_path tmpdir : string) (n_steps : json) :
  (files w !! parameter_file_path = None ->
   (update_parameter_file parameter_file_path tmpdir n_steps w).1
   = Raise (FileNotFoundError parameter_file_path)) /\
  (forall content : string,
     files w !! parameter_file_path = Some (BinaryFile content) ->
     (update_parameter_file parameter_file_path tmpdir n_steps w).1
     = Raise UnicodeDecodeError) /\
  (forall content : string,
     files w !! parameter_file_path = Some (RawFile content) ->
     (update_parameter_file parameter_file_path tmpdir n_steps w).1
     = Raise JSONDecodeError) /\
  (forall (config : json) (e : exn),
     files w !! parameter_file_path = Some (JsonFile config) ->
     compute_fri_step_list n_steps config = Raise e ->
     (update_parameter_file parameter_file_path tmpdir n_steps w).1
     = Raise e) /\
  (forall (config : json) (l : list Z),
     compute_fri_step_list n_steps config = Ok l ->
     exists patched : json,
       assign_fri_step_list config (int_list l) = Ok patched).
Proof.
  rewrite update_parameter_file_unfold.
  split; [|split; [|split; [|split]]].
  - intros ->. reflexivity.
  - intros content ->. reflexivity.
  - intros content ->. reflexivity.
  - intros config e -> ->. reflexivity.
  - intros config l Hl.
    destruct (compute_fri_step_list_reads_bound _ _ _ Hl) as [b Hb].
    apply (assign_fri_step_list_defined config (int_list l) b Hb).
Qed.

Lemma update_parameter_file_raises_witness :
  (update_parameter_file PARAMETER_FILE "/tmp/tmpk3v9" (JInt 1024)
     (World ∅ [])).1
  = Raise (FileNotFoundError PARAMETER_FILE)
  /\
  (update_parameter_file PARAMETER_FILE "/tmp/tmpk3v9" (JInt 0)
     (baseline_world (sample_config 64))).1
  = Raise ValueError.
Proof.
  split.
  - apply (update_parameter_file_raises (World ∅ []) PARAMETER_FILE
             "/tmp/tmpk3v9" (JInt 1024)).
    reflexivity.
  - apply (update_parameter_file_raises (baseline_world (sample_config 64))
             PARAMETER_FILE "/tmp/tmpk3v9" (JInt 0))
      with (config := sample_config 64); reflexivity.
Defined.

(** X9: a successful run of the patcher, for any [n_steps]: the document
    written at the returned path is the baseline with
    [stark.fri.fri_step_list] set to the derived list; every path off that
    field leads where it led in the baseline, the dicts above it keep
    their keys in order, and the bound is as it was. *)
Theorem update_parameter_file_frame
    (w w' : world) (parameter_file_path tmpdir out : string)
    (n_steps : json) :
  update_parameter_file parameter_file_path tmpdir n_steps w = (Ok out, w') ->
  exists (baseline patched : json) (l : list Z),
    files w !! parameter_file_path = Some (JsonFile baseline) /\
    files w' !! out = Some (JsonFile patched) /\
    compute_fri_step_list n_steps baseline = Ok l /\
    get_path fri_step_list_path patched = Some (int_list l) /\
    (forall p : list string,
       ~ fri_step_list_path `prefix_of` p ->
       ~ p `prefix_of` fri_step_list_path ->
       get_path p patched = get_path p baseline) /\
    keys_at [] patched = keys_at [] baseline /\
    keys_at ["stark"] patched = keys_at ["stark"] baseline /\
    keys_at ["stark"; "fri"] patched =
      match get_path fri_step_list_path baseline with
      | Some _ => keys_at ["stark"; "fri"] baseline
      | None =>
          (fun ks => ks ++ ["fri_step_list"])
            <$> keys_at ["stark"; "fri"] baseline
      end.
Proof.
  intros Hrun. apply update_parameter_file_ok_inv in Hrun.
  destruct Hrun as (baseline & patched & l & Hfile & Hl & Hassign & -> & ->).
  exists baseline, patched, l.
  split; [assumption|]. split; [apply lookup_insert_eq|].
  split; [assumption|]. apply assign_fri_step_list_frame. assumption.
Qed.

Lemma update_parameter_file_frame_witness :
  exists (baseline patched : json) (l : list Z),
    files (baseline_world (sample_config 64)) !! PARAMETER_FILE
    = Some (JsonFile baseline) /\
    files
      (update_parameter_file PARAMETER_FILE "/tmp/tmpk3v9" (JInt 100)
         (baseline_world (sample_config 64))).2
      !! "/tmp/tmpk3v9/updated_cpu_air_params.json"
    = Some (JsonFile patched) /\
    compute_fri_step_list (JInt 100) baseline = Ok l /\
    get_path fri_step_list_path patched = Some (int_list l) /\
    (forall p : list string,
       ~ fri_step_list_path `prefix_of` p ->
       ~ p `prefix_of` fri_step_list_path ->
       get_path p patched = get_path p baseline) /\
    keys_at [] patched = keys_at [] baseline /\
    keys_at ["stark"] patched = keys_at ["stark"] baseline /\
    keys_at ["stark"; "fri"] patched =
      match get_path fri_step_list_path baseline with
      | Some _ => keys_at ["stark"; "fri"] baseline
      | None =>
          (fun ks => ks ++ ["fri_step_list"])
            <$> keys_at ["stark"; "fri"] baseline
      end.
Proof.
  apply (update_parameter_file_frame
           (baseline_world (sample_config 64)) _
           PARAMETER_FILE "/tmp/tmpk3v9"
           "/tmp/tmpk3v9/updated_cpu_air_params.json" (JInt 100)).
  reflexivity.
Defined.

(** X10: the patcher writes one file only, the updated file in [tmpdir],
    which is never [cpu_air_params.json]: every other path holds what it
    held, and the log grows by at most one line. *)
Theorem update_parameter_file_writes_one_file
    (w : world) (parameter_file_path tmpdir : string) (n_steps : json) :
  let w' :=
    (update_parameter_file parameter_file_path tmpdir n_steps w).2 in
  (forall path : string,
     path <> os_path_join tmpdir "updated_cpu_air_params.json" ->
     files w' !! path = files w !! path) /\
  os_path_join tmpdir "updated_cpu_air_params.json" <> PARAMETER_FILE /\
  files w' !! PARAMETER_FILE = files w !! PARAMETER_FILE /\
  (logs w' = logs w \/
   logs w' =
     logs w
       ++ [(INFO,
            UpdatedParameterFileSaved
              (os_path_join tmpdir "updated_cpu_air_params.json"))]).
Proof.
  pose proof (updated_file_path_not_parameter_file tmpdir) as Hne.
  unfold updated_file_path in Hne.
  assert (Hfiles : forall path : string,
             path <> os_path_join tmpdir "updated_cpu_air_params.json" ->
             files
               (update_parameter_file parameter_file_path tmpdir n_steps w).2
               !! path
             = files w !! path).
  { intros path Hpath. rewrite update_parameter_file_unfold.
    destruct (files w !! parameter_file_path) as [[config| |]|];
      try reflexivity.
    destruct (compute_fri_step_list n_steps config) as [l|]; try reflexivity.
    destruct (assign_fri_step_list config (int_list l)); try reflexivity.
    simpl. apply lookup_insert_ne. unfold updated_file_path. congruence. }
  simpl. split; [exact Hfiles|]. split; [exact Hne|].
  split; [apply Hfiles; congruence|].
  rewrite update_parameter_file_unfold.
  destruct (files w !! parameter_file_path) as [[config| |]|]; auto.
  destruct (compute_fri_step_list n_steps config) as [l|]; auto.
  destruct (assign_fri_step_list config (int_list l)); auto.
Qed.

(** X11: the patched document agrees with itself: deriving the list again
    from the patched document, with the same [n_steps], gives the list the
    document holds. *)
Theorem update_parameter_file_consistent
    (w w' : world) (parameter_file_path tmpdir out : string)
    (n_steps : json) :
  update_parameter_file parameter_file_path tmpdir n_steps w = (Ok out, w') ->
  exists (patched : json) (l : list Z),
    files w' !! out = Some (JsonFile patched) /\
    compute_fri_step_list n_steps patched = Ok l /\
    get_path fri_step_list_path patched = Some (int_list l).
Proof.
  intros Hrun. apply update_parameter_file_ok_inv in Hrun.
  destruct Hrun as (baseline & patched & l & Hfile & Hl & Hassign & -> & ->).
  exists patched, l. split; [apply lookup_insert_eq|]. split.
  - rewrite <- Hl. apply compute_fri_step_list_same_bound.
    eapply assign_fri_step_list_bound. eassumption.
  - apply assign_fri_step_list_frame in Hassign. apply Hassign.
Qed.

Lemma update_parameter_file_consistent_witness :
  exists (patched : json) (l : list Z),
    files
      (update_parameter_file PARAMETER_FILE "/tmp/tmpk3v9" (JInt 100)
         (baseline_world (sample_config 64))).2
      !! "/tmp/tmpk3v9/updated_cpu_air_params.json"
    = Some (JsonFile patched) /\
    compute_fri_step_list (JInt 100) patched = Ok l /\
    get_path fri_step_list_path patched = Some (int_list l).
Proof.
  apply (update_parameter_file_consistent
           (baseline_world (sample_config 64)) _
           PARAMETER_FILE "/tmp/tmpk3v9"
           "/tmp/tmpk3v9/updated_cpu_air_params.json" (JInt 100)).
  reflexivity.
Defined.

(** X12: the last run wins.  When the patcher succeeds with [n1] and with
    [n2] from the same world, running it with [n2] after the run with [n1],
    in the same directory, succeeds and leaves every file as the run with
    [n2] alone leaves it, even when the updated file is the parameter file
    itself. *)
Theorem update_parameter_file_last_run_wins
    (w w1 w2 : world) (parameter_file_path tmpdir out1 out2 : string)
    (n1 n2 : json) :
  update_parameter_file parameter_file_path tmpdir n1 w = (Ok out1, w1) ->
  update_parameter_file parameter_file_path tmpdir n2 w = (Ok out2, w2) ->
  exists w12 : world,
    update_parameter_file parameter_file_path tmpdir n2 w1 = (Ok out2, w12) /\
    files w12 = files w2.
Proof.
  intros Hrun1 Hrun2.
  apply update_parameter_file_ok_inv in Hrun1, Hrun2.
  destruct Hrun1 as (config & p1 & l1 & Hfile & Hl1 & Ha1 & -> & ->).
  destruct Hrun2 as (config' & p2 & l2 & Hfile' & Hl2 & Ha2 & -> & ->).
  rewrite Hfile in Hfile'. injection Hfile' as <-.
  rewrite update_parameter_file_unfold. simpl.
  destruct (decide (updated_file_path tmpdir = parameter_file_path))
    as [Heq|Hne].
  - rewrite <- Heq, lookup_insert_eq.
    rewrite (compute_fri_step_list_same_bound n2 p1 config)
      by (eapply assign_fri_step_list_bound; eassumption).
    rewrite Hl2, (assign_fri_step_list_assign _ _ _ _ Ha1), Ha2.
    eexists. split; [reflexivity|]. simpl. apply insert_insert_eq.
  - rewrite lookup_insert_ne, Hfile, Hl2, Ha2 by assumption.
    eexists. split; [reflexivity|]. simpl. apply insert_insert_eq.
Qed.

Lemma update_parameter_file_last_run_wins_witness :
  exists w12 : world,
    update_parameter_file PARAMETER_FILE "/tmp/tmpk3v9" (JInt 100)
      (update_parameter_file PARAMETER_FILE "/tmp/tmpk3v9" (JInt 1024)
         (baseline_world (sample_config 64))).2
    = (Ok "/tmp/tmpk3v9/updated_cpu_air_params.json", w12) /\
    files w12 =
    files
      (update_parameter_file PARAMETER_FILE "/tmp/tmpk3v9" (JInt 100)
         (baseline_world (sample_config 64))).2.
Proof.
  apply (update_parameter_file_last_run_wins
           (baseline_world (sample_config 64)) _ _
           PARAMETER_FILE "/tmp/tmpk3v9"
           "/tmp/tmpk3v9/updated_cpu_air_params.json"
           "/tmp/tmpk3v9/updated_cpu_air_params.json"
           (JInt 1024) (JInt 100));
    reflexivity.
Defined.

(** ** Running a command *)

Lemma bind_ok {A B} (m : M A) (k : A -> M B) (w w' : world) (a : A) :
  m w = (Ok a, w') -> St.bind m k w = k a w'.
Proof. intros H. unfold St.bind. rewrite H. reflexivity. Qed.

Lemma bind_raise {A B} (m : M A) (k : A -> M B) (w w' : world) (e : exn) :
  m w = (Raise e, w') -> St.bind m k w = (Raise e, w').
Proof. intros H. unfold St.bind. rewrite H. reflexivity. Qed.

Section RunCommand.

Variable subprocess_run :
  list string -> gmap string file -> outcome * gmap string file.

Lemma run_command_unfold (command : list string) (w : world) :
  run_command subprocess_run command w =
  match subprocess_run command (files w) with
  | (Exit 0, fs) => (Ok tt, World fs (logs w ++ [running command]))
  | (Exit returncode, fs) =>
      (Raise (CalledProcessError command returncode),
       World fs
         (logs w ++ [running command; command_failed command returncode]))
  | (NotStarted, fs) => (Raise OSError, World fs (logs w ++ [running command]))
  end.
Proof.
  unfold run_command, St.try_except, St.bind, subprocess_run_check,
    logging_info, logging_error, logging, running, command_failed.
  simpl.
  destruct (subprocess_run command (files w)) as [[[|c|c]|] fs]; simpl;
    rewrite <- ?app_assoc; reflexivity.
Qed.

Lemma run_command_exit_0
    (command : list string) (w : world) (fs : gmap string file) :
  subprocess_run command (files w) = (Exit 0, fs) ->
  run_command subprocess_run command w
  = (Ok tt, World fs (logs w ++ [running command])).
Proof. intros H. rewrite run_command_unfold, H. reflexivity. Qed.

Lemma run_command_exit_other
    (command : list string) (w : world) (fs : gmap string file)
    (returncode : Z) :
  subprocess_run command (files w) = (Exit returncode, fs) ->
  returncode <> 0%Z ->
  run_command subprocess_run command w
  = (Raise (CalledProcessError command returncode),
     World fs
       (logs w ++ [running command; command_failed command returncode])).
Proof.
  intros H Hc. rewrite run_command_unfold, H.
  destruct returncode; [contradiction| |]; reflexivity.
Qed.

(** X13: [run_command] logs the command line, then lets the program run.
    Status 0 is the only way to return; any other status is logged at
    level ERROR and raised as [CalledProcessError] with the command and the
    status; a program that cannot be started raises [OSError] and is not
    logged as a failed command.  In every case the files are what the
    program left. *)
Theorem run_command_outcome
    (command : list string) (w : world)
    (o : outcome) (fs : gmap string file) :
  subprocess_run command (files w) = (o, fs) ->
  files (run_command subprocess_run command w).2 = fs /\
  ((run_command subprocess_run command w).1 = Ok tt <-> o = Exit 0) /\
  (forall returncode : Z,
     o = Exit returncode -> returncode <> 0%Z ->
     (run_command subprocess_run command w).1
     = Raise (CalledProcessError command returncode) /\
     logs (run_command subprocess_run command w).2
     = logs w ++ [running command; command_failed command returncode]) /\
  (o = Exit 0 \/ o = NotStarted ->
   logs (run_command subprocess_run command w).2
   = logs w ++ [running command]) /\
  (o = NotStarted ->
   (run_command subprocess_run command w).1 = Raise OSError).
Proof.
  intros H. rewrite run_command_unfold, H.
  destruct o as [[|c|c]|]; simpl;
    (split; [reflexivity|]);
    (split; [split; [congruence || reflexivity | congruence || reflexivity]|]);
    (split; [intros rc [= <-] Hrc; try contradiction; auto|]);
    (split; [intros [Ho|Ho]; try discriminate Ho; reflexivity|]);
    intros Ho; try discriminate Ho; reflexivity.
Qed.

End RunCommand.

Lemma run_command_outcome_witness :
  files
    (run_command toolchain (compile_command "dex" "/tmp/tmpk3v9")
       (baseline_world (sample_config 64))).2
  = files (baseline_world (sample_config 64)) /\
  (run_command toolchain (compile_command "dex" "/tmp/tmpk3v9")
     (baseline_world (sample_config 64))).1
  = Raise (CalledProcessError (compile_command "dex" "/tmp/tmpk3v9") 1).
Proof.
  destruct (run_command_outcome toolchain
              (compile_command "dex" "/tmp/tmpk3v9")
              (baseline_world (sample_config 64))
              (Exit 1) (files (baseline_world (sample_config 64))))
    as (Hfiles & _ & Hfail & _); [reflexivity|].
  split; [exact Hfiles|].
  apply (Hfail 1%Z); [reflexivity|discriminate].
Defined.

(** ** One layout, step by step *)

Section ProcessLayout.

Variable subprocess_run :
  list string -> gmap string file -> outcome * gmap string file.
Variable mkdtemp : gmap string file -> string.

(** [process_layout] is the announcement, the body run in a fresh
    directory, and the removal of the directory. *)
Lemma process_layout_unfold (layout : string) (w : world) :
  process_layout subprocess_run mkdtemp layout w =
  let tmpdir := mkdtemp (files w) in
  let '(r, w') :=
    process_layout_body subprocess_run layout tmpdir
      (World (files w) (logs w ++ [(INFO, ProcessingLayout layout)])) in
  (r, World (rmtree tmpdir (files w')) (logs w')).
Proof. reflexivity. Qed.

(** X14: when [process_layout] is over, with or without an exception, no
    file is left below the temporary directory. *)
Theorem process_layout_cleanup (layout : string) (w : world) (path : string) :
  String.prefix (mkdtemp (files w) +:+ "/") path = true ->
  files (process_layout subprocess_run mkdtemp layout w).2 !! path = None.
Proof.
  intros Hunder. rewrite process_layout_unfold. simpl.
  destruct (process_layout_body _ _ _ _) as [r w']. simpl.
  unfold rmtree. apply map_lookup_filter_None_2. right.
  intros x _. simpl. rewrite Hunder. discriminate.
Qed.

(** X15: when the compiler exits with a status other than 0,
    [process_layout] raises its [CalledProcessError]; the runner and the
    prover are not started: the log gains the announcement, the command
    line of the compiler and its failure, nothing else. *)
Theorem process_layout_compile_fails
    (layout : string) (w : world) (returncode : Z)
    (fs : gmap string file) :
  let tmpdir := mkdtemp (files w) in
  subprocess_run (compile_command layout tmpdir) (files w)
  = (Exit returncode, fs) ->
  returncode <> 0%Z ->
  process_layout subprocess_run mkdtemp layout w =
  (Raise (CalledProcessError (compile_command layout tmpdir) returncode),
   World (rmtree tmpdir fs)
     (logs w
        ++ [ (INFO, ProcessingLayout layout);
             running (compile_command layout tmpdir);
             command_failed (compile_command layout tmpdir) returncode ])).
Proof.
  intros tmpdir Hcompile Hcode. rewrite process_layout_unfold.
  fold tmpdir. unfold process_layout_body.
  erewrite bind_raise;
    [|apply run_command_exit_other; [exact Hcompile|exact Hcode]].
  simpl. rewrite <- app_assoc. reflexivity.
Qed.

(** X16: when the compiler succeeds and the runner exits with a status
    other than 0, [process_layout] raises the [CalledProcessError] of the
    runner and the prover is not started. *)
Theorem process_layout_run_fails
    (layout : string) (w : world) (returncode : Z)
    (fs1 fs2 : gmap string file) :
  let tmpdir := mkdtemp (files w) in
  subprocess_run (compile_command layout tmpdir) (files w) = (Exit 0, fs1) ->
  subprocess_run (cairo_run_command layout tmpdir) fs1
  = (Exit returncode, fs2) ->
  returncode <> 0%Z ->
  process_layout subprocess_run mkdtemp layout w =
  (Raise (CalledProcessError (cairo_run_command layout tmpdir) returncode),
   World (rmtree tmpdir fs2)
     (logs w
        ++ [ (INFO, ProcessingLayout layout);
             running (compile_command layout tmpdir);
             running (cairo_run_command layout tmpdir);
             command_failed (cairo_run_command layout tmpdir) returncode ])).
Proof.
  intros tmpdir Hcompile Hrun Hcode. rewrite process_layout_unfold.
  fold tmpdir. unfold process_layout_body.
  erewrite bind_ok; [|apply run_command_exit_0; exact Hcompile].
  erewrite bind_raise;
    [|apply run_command_exit_other; [exact Hrun|exact Hcode]].
  simpl. rewrite <- !app_assoc. reflexivity.
Qed.

(** X17: when the compiler and the runner succeed but the public input
    the runner wrote has no [n_steps], [process_layout] raises before an
    updated parameter file is written, and the prover is not started.
    The exception is [ValueError] when [cpu_air_params.json] holds a JSON
    document, and otherwise the error of reading that file. *)
Theorem process_layout_no_steps
    (layout : string) (w : world) (fs1 fs2 : gmap string file)
    (fields : list (string * json)) :
  let tmpdir := mkdtemp (files w) in
  subprocess_run (compile_command layout tmpdir) (files w) = (Exit 0, fs1) ->
  subprocess_run (cairo_run_command layout tmpdir) fs1 = (Exit 0, fs2) ->
  fs2 !! public_input_path tmpdir = Some (JsonFile (JObj fields)) ->
  dict_get "n_steps" fields = None ->
  process_layout subprocess_run mkdtemp layout w =
  (Raise
     match fs2 !! PARAMETER_FILE with
     | Some (JsonFile _) => ValueError
     | Some (RawFile _) => JSONDecodeError
     | Some (BinaryFile _) => UnicodeDecodeError
     | None => FileNotFoundError PARAMETER_FILE
     end,
   World (rmtree tmpdir fs2)
     (logs w
        ++ [ (INFO, ProcessingLayout layout);
             running (compile_command layout tmpdir);
             running (cairo_run_command layout tmpdir) ])).
Proof.
  intros tmpdir Hcompile Hrun Hpub Hn. rewrite process_layout_unfold.
  fold tmpdir. unfold process_layout_body.
  erewrite bind_ok; [|apply run_command_exit_0; exact Hcompile].
  erewrite bind_ok; [|apply run_command_exit_0; exact Hrun].
  erewrite bind_ok;
    [|unfold extract_steps, St.bind, St.lift, json_load; simpl;
      rewrite Hpub; simpl; rewrite Hn; reflexivity].
  destruct (fs2 !! PARAMETER_FILE) as [[config| |]|] eqn:Hcfg;
    (erewrite bind_raise;
       [|rewrite update_parameter_file_unfold; simpl; rewrite Hcfg;
         reflexivity]);
    simpl; rewrite <- !app_assoc; reflexivity.
Qed.

(** X18: when the three programs exit with status 0, the public input
    holds an integer [n_steps] and the derivation succeeds on the baseline
    the runner left, [process_layout] returns: the prover was started on
    the updated parameter file in the temporary directory, which holds the
    baseline with the derived list, and the log tells the five steps in
    order. *)
Theorem process_layout_succeeds
    (layout : string) (w : world) (fs1 fs2 fs3 : gmap string file)
    (fields : list (string * json)) (n_steps : Z) (config patched : json)
    (l : list Z) :
  let tmpdir := mkdtemp (files w) in
  let updated_file := os_path_join tmpdir "updated_cpu_air_params.json" in
  subprocess_run (compile_command layout tmpdir) (files w) = (Exit 0, fs1) ->
  subprocess_run (cairo_run_command layout tmpdir) fs1 = (Exit 0, fs2) ->
  fs2 !! public_input_path tmpdir = Some (JsonFile (JObj fields)) ->
  dict_get "n_steps" fields = Some (JInt n_steps) ->
  fs2 !! PARAMETER_FILE = Some (JsonFile config) ->
  compute_fri_step_list (JInt n_steps) config = Ok l ->
  assign_fri_step_list config (int_list l) = Ok patched ->
  subprocess_run (prover_command layout tmpdir updated_file)
    (<[updated_file := JsonFile patched]> fs2)
  = (Exit 0, fs3) ->
  process_layout subprocess_run mkdtemp layout w =
  (Ok tt,
   World (rmtree tmpdir fs3)
     (logs w
        ++ [ (INFO, ProcessingLayout layout);
             running (compile_command layout tmpdir);
             running (cairo_run_command layout tmpdir);
             (INFO, UpdatedParameterFileSaved updated_file);
             running (prover_command layout tmpdir updated_file);
             (INFO, ProofSaved layout (proof_output_path layout)) ])).
Proof.
  intros tmpdir updated_file Hcompile Hrun Hpub Hn Hcfg Hl Hassign Hprove.
  rewrite process_layout_unfold. fold tmpdir. unfold process_layout_body.
  erewrite bind_ok; [|apply run_command_exit_0; exact Hcompile].
  erewrite bind_ok; [|apply run_command_exit_0; exact Hrun].
  erewrite bind_ok;
    [|unfold extract_steps, St.bind, St.lift, json_load; simpl;
      rewrite Hpub; simpl; rewrite Hn; reflexivity].
  erewrite bind_ok;
    [|rewrite update_parameter_file_unfold; simpl;
      rewrite Hcfg, Hl, Hassign; reflexivity].
  erewrite bind_ok; [|apply run_command_exit_0; exact Hprove].
  unfold logging_info, logging. simpl. rewrite <- !app_assoc. reflexivity.
Qed.

End ProcessLayout.

Lemma process_layout_cleanup_witness :
  files
    (process_layout toolchain fixed_tmpdir "small"
       (baseline_world (sample_config 64))).2
    !! "/tmp/tmpk3v9/updated_cpu_air_params.json"
  = None.
Proof.
  apply (process_layout_cleanup toolchain fixed_tmpdir "small"
           (baseline_world (sample_config 64))
           "/tmp/tmpk3v9/updated_cpu_air_params.json").
  reflexivity.
Defined.

Lemma process_layout_compile_fails_witness :
  process_layout toolchain fixed_tmpdir "dex"
    (baseline_world (sample_config 64))
  = (Raise (CalledProcessError (compile_command "dex" "/tmp/tmpk3v9") 1),
     World
       (rmtree "/tmp/tmpk3v9" (files (baseline_world (sample_config 64))))
       [ (INFO, ProcessingLayout "dex");
         running (compile_command "dex" "/tmp/tmpk3v9");
         command_failed (compile_command "dex" "/tmp/tmpk3v9") 1 ]).
Proof.
  apply (process_layout_compile_fails toolchain fixed_tmpdir "dex"
           (baseline_world (sample_config 64)) 1
           (files (baseline_world (sample_config 64))));
    [reflexivity | discriminate].
Defined.

Lemma process_layout_run_fails_witness :
  (process_layout toolchain_runner_fails fixed_tmpdir "small"
     (baseline_world (sample_config 64))).1
  = Raise (CalledProcessError (cairo_run_command "small" "/tmp/tmpk3v9") 1)
  /\
  logs
    (process_layout toolchain_runner_fails fixed_tmpdir "small"
       (baseline_world (sample_config 64))).2
  = [ (INFO, ProcessingLayout "small");
      running (compile_command "small" "/tmp/tmpk3v9");
      running (cairo_run_command "small" "/tmp/tmpk3v9");
      command_failed (cairo_run_command "small" "/tmp/tmpk3v9") 1 ].
Proof.
  erewrite (process_layout_run_fails toolchain_runner_fails fixed_tmpdir
              "small" (baseline_world (sample_config 64)) 1);
    [split; reflexivity | reflexivity | reflexivity | discriminate].
Defined.

Lemma process_layout_no_steps_witness :
  (process_layout toolchain_no_steps fixed_tmpdir "small"
     (baseline_world (sample_config 64))).1
  = Raise ValueError
  /\
  logs
    (process_layout toolchain_no_steps fixed_tmpdir "small"
       (baseline_world (sample_config 64))).2
  = [ (INFO, ProcessingLayout "small");
      running (compile_command "small" "/tmp/tmpk3v9");
      running (cairo_run_command "small" "/tmp/tmpk3v9") ].
Proof.
  rewrite (process_layout_no_steps toolchain_no_steps fixed_tmpdir
             "small" (baseline_world (sample_config 64))
             (toolchain_no_steps (compile_command "small" "/tmp/tmpk3v9")
                (files (baseline_world (sample_config 64)))).2
             (toolchain_no_steps (cairo_run_command "small" "/tmp/tmpk3v9")
                (toolchain_no_steps
                   (compile_command "small" "/tmp/tmpk3v9")
                   (files (baseline_world (sample_config 64)))).2).2
             [("layout", JStr "small")]);
    [split; reflexivity | reflexivity | reflexivity | reflexivity
    | reflexivity].
Defined.

Lemma process_layout_succeeds_witness :
  (process_layout toolchain fixed_tmpdir "small"
     (baseline_world (sample_config 64))).1
  = Ok tt
  /\
  logs
    (process_layout toolchain fixed_tmpdir "small"
       (baseline_world (sample_config 64))).2
  = [ (INFO, ProcessingLayout "small");
      running (compile_command "small" "/tmp/tmpk3v9");
      running (cairo_run_command "small" "/tmp/tmpk3v9");
      (INFO,
       UpdatedParameterFileSaved "/tmp/tmpk3v9/updated_cpu_air_params.json");
      running
        (prover_command "small" "/tmp/tmpk3v9"
           "/tmp/tmpk3v9/updated_cpu_air_params.json");
      (INFO, ProofSaved "small" (proof_output_path "small")) ].
Proof.
  erewrite (process_layout_succeeds toolchain fixed_tmpdir "small"
              (baseline_world (sample_config 64)) _ _ _
              [("layout", JStr "small"); ("n_steps", JInt 1024)] 1024
              (sample_config 64) _ [0; 4; 4]%Z);
    [split; reflexivity | reflexivity | reflexivity | reflexivity
    | reflexivity | reflexivity | reflexivity | reflexivity | reflexivity].
Defined.

(** ** The whole loop *)

Lemma contains_sep_append (a b : string) :
  contains_sep (a +:+ b) = orb (contains_sep a) (contains_sep b).
Proof.
  induction a as [|c a IH]; [reflexivity|].
  rewrite string_append_cons. simpl. rewrite IH, orb_assoc. reflexivity.
Qed.

Lemma ends_with_sep_contains (a : string) :
  ends_with_sep a = true -> contains_sep a = true.
Proof.
  induction a as [|c a IH]; [discriminate|]. simpl.
  destruct a as [|c' a'].
  - intros ->. reflexivity.
  - intros H. rewrite (IH H). apply orb_true_r.
Qed.

Lemma string_prefix_cons (a b : ascii) (s1 s2 : string) :
  String.prefix (String a s1) (String b s2) =
  if ascii_dec a b then String.prefix s1 s2 else false.
Proof. reflexivity. Qed.

Lemma prefix_sep_contains (t path : string) :
  String.prefix (t +:+ "/") path = true -> contains_sep path = true.
Proof.
  revert path. induction t as [|c t IH]; intros path H.
  - change ("" +:+ "/") with "/" in H.
    destruct path as [|b path]; [discriminate|].
    rewrite string_prefix_cons in H.
    destruct (ascii_dec "/" b) as [<-|]; [reflexivity|discriminate].
  - rewrite string_append_cons in H.
    destruct path as [|b path]; [discriminate|].
    rewrite string_prefix_cons in H.
    destruct (ascii_dec c b); [|discriminate].
    simpl. rewrite (IH _ H). apply orb_true_r.
Qed.

(** A path without separator is not below any directory. *)
Lemma rmtree_keeps (tmpdir path : string) (fs : gmap string file) :
  contains_sep path = false -> rmtree tmpdir fs !! path = fs !! path.
Proof.
  intros Hsep. unfold rmtree.
  assert (Hout : String.prefix (tmpdir +:+ "/") path = false).
  { destruct (String.prefix (tmpdir +:+ "/") path) eqn:E; [|reflexivity].
    apply prefix_sep_contains in E. congruence. }
  destruct (fs !! path) as [x|] eqn:Hx.
  - apply map_lookup_filter_Some_2; assumption.
  - apply map_lookup_filter_None_2. left. assumption.
Qed.

(** A name without separator is the updated file only when it is its file
    name. *)
Lemma updated_file_path_has_sep (tmpdir path : string) :
  contains_sep path = false ->
  path <> "updated_cpu_air_params.json" ->
  path <> updated_file_path tmpdir.
Proof.
  intros Hsep Hname ->. unfold updated_file_path, os_path_join in *.
  simpl in Hsep, Hname.
  destruct (String.eqb tmpdir "") eqn:Hdir; simpl in *.
  - apply String.eqb_eq in Hdir. subst tmpdir. apply Hname. reflexivity.
  - destruct (ends_with_sep tmpdir) eqn:Hend;
      rewrite !contains_sep_append in Hsep.
    + rewrite (ends_with_sep_contains _ Hend) in Hsep. discriminate.
    + simpl in Hsep. rewrite orb_true_r in Hsep. discriminate.
Qed.

Lemma appends_weaken {A} (ok ok' : level * message -> bool) (m : M A) :
  (forall line, ok line = true -> ok' line = true) ->
  appends ok m -> appends ok' m.
Proof.
  intros Himp Hm w. destruct (Hm w) as (extra & He & Hok).
  exists extra. split; [assumption|].
  apply forallb_forall. intros x Hx.
  apply Himp. eapply forallb_forall in Hok; eassumption.
Qed.

Lemma appends_no_log {A} (ok : level * message -> bool) (m : M A) :
  (forall w, logs (m w).2 = logs w) -> appends ok m.
Proof. intros H w. exists []. rewrite H, app_nil_r. auto. Qed.

Lemma appends_bind {A B} (ok : level * message -> bool)
    (m : M A) (k : A -> M B) :
  appends ok m -> (forall a, appends ok (k a)) -> appends ok (St.bind m k).
Proof.
  intros Hm Hk w. unfold St.bind.
  destruct (Hm w) as (e1 & He1 & Hp1).
  destruct (m w) as [[a|e] w1]; simpl in *.
  - destruct (Hk a w1) as (e2 & He2 & Hp2).
    exists (e1 ++ e2). rewrite He2, He1, app_assoc, forallb_app, Hp1, Hp2.
    auto.
  - exists e1. auto.
Qed.

Lemma appends_try_except {A} (ok : level * message -> bool)
    (body : M A) (handler : exn -> M A) :
  appends ok body -> (forall e, appends ok (handler e)) ->
  appends ok (St.try_except body handler).
Proof.
  intros Hm Hk w. unfold St.try_except.
  destruct (Hm w) as (e1 & He1 & Hp1).
  destruct (body w) as [[a|e] w1]; simpl in *.
  - exists e1. auto.
  - destruct (Hk e w1) as (e2 & He2 & Hp2).
    exists (e1 ++ e2). rewrite He2, He1, app_assoc, forallb_app, Hp1, Hp2.
    auto.
Qed.

Lemma appends_logging (ok : level * message -> bool)
    (lvl : level) (msg : message) :
  ok (lvl, msg) = true -> appends ok (logging lvl msg).
Proof. intros H w. exists [(lvl, msg)]. simpl. rewrite H. auto. Qed.

Lemma failed_app (l1 l2 : list (level * message)) :
  failed (l1 ++ l2) = failed l1 ++ failed l2.
Proof.
  induction l1 as [|[lvl msg] l1 IH]; [reflexivity|].
  destruct msg; simpl; rewrite IH; reflexivity.
Qed.

Lemma failed_no_report (l : list (level * message)) :
  forallb not_a_failure_report l = true -> failed l = [].
Proof.
  induction l as [|[lvl msg] l IH]; [reflexivity|]. simpl.
  destruct msg; simpl; try discriminate; exact IH.
Qed.

Lemma keeps_same_files {A} (path : string) (m : M A) :
  (forall w, files (m w).2 = files w) -> keeps path m.
Proof. intros H w. rewrite H. reflexivity. Qed.

Lemma keeps_bind {A B} (path : string) (m : M A) (k : A -> M B) :
  keeps path m -> (forall a, keeps path (k a)) -> keeps path (St.bind m k).
Proof.
  intros Hm Hk w. unfold St.bind. specialize (Hm w).
  destruct (m w) as [[a|e] w1]; simpl in *; [|assumption].
  rewrite Hk. assumption.
Qed.

Lemma keeps_try_except {A} (path : string)
    (body : M A) (handler : exn -> M A) :
  keeps path body -> (forall e, keeps path (handler e)) ->
  keeps path (St.try_except body handler).
Proof.
  intros Hm Hk w. unfold St.try_except. specialize (Hm w).
  destruct (body w) as [[a|e] w1]; simpl in *; [assumption|].
  rewrite Hk. assumption.
Qed.

Lemma keeps_extract_steps (path public_input_file : string) :
  keeps path (extract_steps public_input_file).
Proof.
  apply keeps_same_files. intros w.
  unfold extract_steps, St.bind, St.lift, json_load.
  destruct (files w !! public_input_file) as [[doc| |]|]; reflexivity.
Qed.

Lemma keeps_update_parameter_file
    (path parameter_file_path tmpdir : string) (n_steps : json) :
  path <> updated_file_path tmpdir ->
  keeps path (update_parameter_file parameter_file_path tmpdir n_steps).
Proof.
  intros Hpath w. rewrite update_parameter_file_unfold.
  destruct (files w !! parameter_file_path) as [[config| |]|]; try reflexivity.
  destruct (compute_fri_step_list n_steps config) as [l|]; try reflexivity.
  destruct (assign_fri_step_list config (int_list l)); try reflexivity.
  simpl. apply lookup_insert_ne. congruence.
Qed.

Lemma appends_extract_steps (ok : level * message -> bool)
    (public_input_file : string) :
  appends ok (extract_steps public_input_file).
Proof.
  apply appends_no_log. intros w.
  unfold extract_steps, St.bind, St.lift, json_load.
  destruct (files w !! public_input_file) as [[doc| |]|]; reflexivity.
Qed.

Lemma appends_update_parameter_file (ok : level * message -> bool)
    (parameter_file_path tmpdir : string) (n_steps : json) :
  ok (INFO, UpdatedParameterFileSaved (updated_file_path tmpdir)) = true ->
  appends ok (update_parameter_file parameter_file_path tmpdir n_steps).
Proof.
  intros Hok w. rewrite update_parameter_file_unfold.
  destruct (files w !! parameter_file_path) as [[config| |]|];
    try (exists []; rewrite app_nil_r; auto; fail).
  destruct (compute_fri_step_list n_steps config) as [l|];
    try (exists []; rewrite app_nil_r; auto; fail).
  destruct (assign_fri_step_list config (int_list l));
    try (exists []; rewrite app_nil_r; auto; fail).
  eexists. split; [reflexivity|]. simpl. rewrite Hok. reflexivity.
Qed.

Section MainLoop.

Variable subprocess_run :
  list string -> gmap string file -> outcome * gmap string file.
Variable mkdtemp : gmap string file -> string.

Lemma appends_run_command (ok : level * message -> bool)
    (command : list string) :
  (forall line, not_a_failure_report line = true -> ok line = true) ->
  appends ok (run_command subprocess_run command).
Proof.
  intros Hok. apply (appends_weaken not_a_failure_report); [exact Hok|].
  intros w. rewrite run_command_unfold.
  destruct (subprocess_run command (files w)) as [[[|c|c]|] fs]; simpl;
    eexists; split; reflexivity.
Qed.

Lemma appends_process_layout (ok : level * message -> bool)
    (layout : string) :
  (forall line, not_a_failure_report line = true -> ok line = true) ->
  appends ok (process_layout subprocess_run mkdtemp layout).
Proof.
  intros Hok. apply (appends_weaken not_a_failure_report); [exact Hok|].
  assert (Hbody : forall tmpdir,
             appends not_a_failure_report
               (process_layout_body subprocess_run layout tmpdir)).
  { intros tmpdir. unfold process_layout_body.
    repeat first
      [ apply appends_run_command; auto
      | apply appends_extract_steps
      | apply appends_update_parameter_file; reflexivity
      | apply appends_logging; reflexivity
      | apply appends_bind; [|intros ?] ]. }
  intros w. rewrite process_layout_unfold. simpl.
  destruct (Hbody (mkdtemp (files w))
              (World (files w) (logs w ++ [(INFO, ProcessingLayout layout)])))
    as (extra & He & Hextra).
  destruct (process_layout_body _ _ _ _) as [r w']. simpl in *.
  exists ((INFO, ProcessingLayout layout) :: extra).
  rewrite He, <- app_assoc. split; [reflexivity|]. exact Hextra.
Qed.

Lemma appends_main_loop (layouts : list string) :
  appends any_line (main_loop subprocess_run mkdtemp layouts).
Proof.
  induction layouts as [|layout rest IH]; simpl.
  - apply appends_no_log. reflexivity.
  - apply appends_bind; [|intros _; exact IH].
    apply appends_try_except.
    + apply appends_process_layout. reflexivity.
    + intros e. apply appends_logging. reflexivity.
Qed.

(** X20: the log only grows: whatever the external programs do, the lines
    logged before the main loop are, unchanged and in order, the beginning
    of the log after it. *)
Theorem main_log_grows (w : world) :
  logs w `prefix_of` logs (main subprocess_run mkdtemp w).2.
Proof.
  destruct (appends_main_loop LAYOUTS w) as (extra & He & _).
  exists extra. exact He.
Qed.

(** X21: the main loop reports a failure at most once per layout, in the
    order of the list, and only for layouts of the list: the layouts of
    the new lines "Error processing layout" form a sublist of the
    layouts. *)
Theorem main_failures_sublist (w : world) :
  exists reported : list string,
    failed (logs (main subprocess_run mkdtemp w).2)
    = failed (logs w) ++ reported /\
    reported `sublist_of` LAYOUTS.
Proof.
  unfold main. generalize LAYOUTS. intros layouts. revert w.
  induction layouts as [|layout rest IH]; intros w.
  - exists []. simpl. rewrite app_nil_r. split; [reflexivity|constructor].
  - simpl. unfold St.bind, St.try_except.
    destruct (appends_process_layout not_a_failure_report layout
                ltac:(auto) w) as (extra & He & Hextra).
    apply failed_no_report in Hextra.
    destruct (process_layout subprocess_run mkdtemp layout w)
      as [[[]|e] w1]; simpl in He.
    + destruct (IH w1) as (reported & Hr & Hsub).
      exists reported. rewrite Hr, He, failed_app, Hextra, app_nil_r.
      split; [reflexivity|]. apply sublist_cons. exact Hsub.
    + unfold logging_error, logging.
      destruct (IH (World (files w1)
                      (logs w1 ++ [(ERROR, ErrorProcessingLayout layout e)])))
        as (reported & Hr & Hsub).
      exists (layout :: reported). rewrite Hr. simpl.
      rewrite He, !failed_app, Hextra, app_nil_r. simpl.
      rewrite <- app_assoc. split; [reflexivity|].
      apply sublist_skip. exact Hsub.
Qed.

(** X22: the loop over a list of layouts followed by another is the loop
    over the first, then the loop over the second from the world the first
    one left: no layout stops the ones after it. *)
Theorem main_loop_app (layouts1 layouts2 : list string) (w : world) :
  main_loop subprocess_run mkdtemp (layouts1 ++ layouts2) w =
  main_loop subprocess_run mkdtemp layouts2
    (main_loop subprocess_run mkdtemp layouts1 w).2.
Proof.
  revert w. induction layouts1 as [|layout rest IH]; intros w;
    [reflexivity|].
  simpl. unfold St.bind.
  destruct (St.try_except _ _ w) as [[[]|e] w1] eqn:Hstep.
  - apply IH.
  - exfalso. unfold St.try_except in Hstep.
    destruct (process_layout subprocess_run mkdtemp layout w)
      as [[[]|e'] w0]; discriminate.
Qed.

Lemma keeps_run_command (path : string) (command : list string) :
  (forall cmd fs, (subprocess_run cmd fs).2 !! path = fs !! path) ->
  keeps path (run_command subprocess_run command).
Proof.
  intros Hkeep w. rewrite run_command_unfold.
  specialize (Hkeep command (files w)).
  destruct (subprocess_run command (files w)) as [[[|c|c]|] fs];
    exact Hkeep.
Qed.

Lemma keeps_process_layout (path layout : string) :
  (forall cmd fs, (subprocess_run cmd fs).2 !! path = fs !! path) ->
  contains_sep path = false ->
  path <> "updated_cpu_air_params.json" ->
  keeps path (process_layout subprocess_run mkdtemp layout).
Proof.
  intros Hkeep Hsep Hname w. rewrite process_layout_unfold. simpl.
  assert (Hbody : keeps path
            (process_layout_body subprocess_run layout (mkdtemp (files w)))).
  { unfold process_layout_body.
    repeat first
      [ apply keeps_run_command; exact Hkeep
      | apply keeps_extract_steps
      | apply keeps_update_parameter_file;
        apply updated_file_path_has_sep; assumption
      | apply keeps_same_files; reflexivity
      | apply keeps_bind; [|intros ?] ]. }
  specialize (Hbody
                (World (files w)
                   (logs w ++ [(INFO, ProcessingLayout layout)]))).
  destruct (process_layout_body _ _ _ _) as [r w']. simpl in *.
  rewrite rmtree_keeps by assumption. exact Hbody.
Qed.

(** X19: the script itself leaves the files of the working directory
    alone: a path without directory part, other than
    [updated_cpu_air_params.json], that the external programs do not touch
    holds after the main loop what it held before.  This covers the
    baseline [cpu_air_params.json]. *)
Theorem main_keeps_working_files (path : string) (w : world) :
  (forall cmd fs, (subprocess_run cmd fs).2 !! path = fs !! path) ->
  contains_sep path = false ->
  path <> "updated_cpu_air_params.json" ->
  files (main subprocess_run mkdtemp w).2 !! path = files w !! path.
Proof.
  intros Hkeep Hsep Hname. unfold main. generalize LAYOUTS.
  intros layouts. revert w.
  induction layouts as [|layout rest IH]; intros w; [reflexivity|].
  simpl. apply keeps_bind; [|intros _ w0; apply IH].
  apply keeps_try_except.
  - apply keeps_process_layout; assumption.
  - intros e. apply keeps_same_files. reflexivity.
Qed.

End MainLoop.

Lemma main_keeps_working_files_witness :
  files
    (main always_fails fixed_tmpdir (baseline_world (sample_config 64))).2
    !! PARAMETER_FILE
  = files (baseline_world (sample_config 64)) !! PARAMETER_FILE.
Proof.
  apply (main_keeps_working_files always_fails fixed_tmpdir PARAMETER_FILE
           (baseline_world (sample_config 64))).
  - intros cmd fs. reflexivity.
  - reflexivity.
  - discriminate.
Defined.

(** ** The arguments of the run command *)

Lemma has_flag_value_at (flag value : string) (pre post : list string) :
  has_flag_value flag value (pre ++ flag :: value :: post) = true.
Proof.
  induction pre as [|a pre IH].
  - simpl. rewrite !String.eqb_refl. reflexivity.
  - destruct pre as [|b pre].
    + simpl in *. rewrite !String.eqb_refl. apply orb_true_r.
    + change
        (has_flag_value flag value
           ((a :: b :: pre) ++ flag :: value :: post))
        with (orb (andb (String.eqb a flag) (String.eqb b value))
                (has_flag_value flag value
                   ((b :: pre) ++ flag :: value :: post))).
      rewrite IH. apply orb_true_r.
Qed.

(** X23: [build_cairo_run_command] starts the command with [cairo-run]
    and hands each of its arguments over under the flag of its name: the
    program, the layout, the program input, the trace, the memory, the
    private and the public input, none swapped, for every layout. *)
Theorem build_cairo_run_command_arguments
    (layout compiled_output trace_file memory_file
     public_input_file private_input_file : string) :
  let command :=
    build_cairo_run_command layout compiled_output trace_file memory_file
      public_input_file private_input_file in
  head command = Some "cairo-run" /\
  has_flag_value "--program" compiled_output command = true /\
  has_flag_value "--layout" layout command = true /\
  has_flag_value "--program_input" "fibonacci_input.json" command = true /\
  has_flag_value "--trace_file" trace_file command = true /\
  has_flag_value "--memory_file" memory_file command = true /\
  has_flag_value "--air_private_input" private_input_file command = true /\
  has_flag_value "--air_public_input" public_input_file command = true /\
  In "--proof_mode" command.
Proof.
  unfold build_cairo_run_command.
  destruct (String.eqb layout "dynamic"); cbv zeta;
    (split; [reflexivity|]);
    (split; [apply (has_flag_value_at _ _ [_])|]);
    (split; [apply (has_flag_value_at _ _ [_; _; _])|]);
    (split; [apply (has_flag_value_at _ _ [_; _; _; _; _; _])|]);
    (split; [apply (has_flag_value_at _ _ [_; _; _; _; _; _; _; _])|]);
    (split;
       [apply (has_flag_value_at _ _ [_; _; _; _; _; _; _; _; _; _])|]);
    (split;
       [apply (has_flag_value_at _ _
                 [_; _; _; _; _; _; _; _; _; _; _; _])|]);
    (split;
       [apply (has_flag_value_at _ _
                 [_; _; _; _; _; _; _; _; _; _; _; _; _; _])|]);
    simpl; auto 10.
Qed.
